(** * ebayScraper: request pacing and user-agent rotation

    A shallow embedding of [utils/rate_limiter.py] and [utils/user_agents.py].

    Modelling conventions.
    - A Python object is a record; a method is a function from the state
      before the call to the state after it (and the returned value, when
      there is one).  Logging calls have no effect on the state and are left
      out.
    - Delays and latencies are Python floats.  They are modelled by exact
      rationals ([Q]); the decimal literals of the source are the same
      decimals here.  Rounding of binary floating point and the non-finite
      floats are abstracted away.
    - Counters are unbounded Python ints that only count up from 0: [nat].
    - A Python [dict] iterates in insertion order, and the code depends on
      that order: it is an association list with the insertion discipline of
      [dict.__setitem__].
    - [random.choice] is given its random index as an explicit argument.
    - A raised exception is a value of [Py.result].
    - [RateLimiter.wait] is given the two clock readings and the random
      draw as arguments and returns the duration it sleeps for. *)

From Stdlib Require Import String Ascii List Bool Arith PeanoNat ZArith QArith Qminmax Lia Lqa.
Import ListNotations.

(** ** The fragment of Python the two modules rely on *)

Module Py.

(** The one exception the modelled methods can raise. *)
Inductive exn : Type :=
| IndexError.

Inductive result (A : Type) : Type :=
| Ok (a : A)
| Raise (e : exn).
Arguments Ok {A} a.
Arguments Raise {A} e.

Definition bind {A B : Type} (m : result A) (k : A -> result B) : result B :=
  match m with
  | Ok a => k a
  | Raise e => Raise e
  end.

(** [a < b] on floats. *)
Definition ltb (a b : Q) : bool := negb (Qle_bool b a).

(** The builtin [max(a, b)]: the first argument, unless the second is
    strictly greater. *)
Definition max (a b : Q) : Q := if ltb a b then b else a.

(** The builtin [min(a, b)]: the first argument, unless the second is
    strictly smaller. *)
Definition min (a b : Q) : Q := if ltb b a then b else a.

(** [sum(xs)] *)
Definition sum (xs : list Q) : Q := fold_left Qplus xs 0%Q.

(** [float(n)] for a non-negative int. *)
Definition of_nat (n : nat) : Q := inject_Z (Z.of_nat n).

(** [xs[-n:]] for [n > 0]. *)
Definition last_n {A : Type} (n : nat) (xs : list A) : list A :=
  skipn (length xs - n) xs.

(** [seq[i]] for [i >= 0]. *)
Definition index {A : Type} (seq : list A) (i : nat) : result A :=
  match nth_error seq i with
  | Some x => Ok x
  | None => Raise IndexError
  end.

(** [random.choice(seq)], where [r] is the random draw: the element at
    position [r mod len(seq)]; [IndexError] on an empty sequence. *)
Definition choice {A : Type} (r : nat) (seq : list A) : result A :=
  match seq with
  | [] => Raise IndexError
  | _ :: _ => index seq (r mod length seq)
  end.

(** [sub in s] on strings. *)
Fixpoint contains (sub s : string) : bool :=
  if String.prefix sub s then true
  else match s with
       | EmptyString => false
       | String _ s' => contains sub s'
       end.

(** [s[:n]] *)
Definition take (n : nat) (s : string) : string := String.substring 0 n s.

(** [x in xs] on a list of strings. *)
Definition mem (x : string) (xs : list string) : bool :=
  existsb (String.eqb x) xs.

(** A [dict] with string keys, in insertion order. *)
Definition dict (V : Type) : Type := list (string * V).

(** [d.get(k)] *)
Fixpoint get {V : Type} (k : string) (d : dict V) : option V :=
  match d with
  | [] => None
  | (k', v) :: d' => if String.eqb k k' then Some v else get k d'
  end.

(** [d[k] = v]: an existing key keeps its place, a new key goes last. *)
Fixpoint set {V : Type} (k : string) (v : V) (d : dict V) : dict V :=
  match d with
  | [] => [(k, v)]
  | (k', v') :: d' =>
      if String.eqb k k' then (k', v) :: d' else (k', v') :: set k v d'
  end.

(** [k in d] *)
Definition has_key {V : Type} (k : string) (d : dict V) : bool :=
  match get k d with
  | Some _ => true
  | None => false
  end.

(** [random.uniform(a, b)], where [u] is the draw of [random.random()], a
    float of [0, 1): CPython returns [a + (b - a) * random()]. *)
Definition uniform (a b u : Q) : Q := a + (b - a) * u.

End Py.

Notation "x <- m ;; k" := (Py.bind m (fun x => k))
  (at level 61, m at next level, right associativity).

(** ** [class RateLimiter] *)

Module RateLimiter.

Record t : Type := mk {
  base_delay : Q;
  randomize : bool;
  last_request_time : option Q;
  consecutive_successes : nat;
  consecutive_failures : nat;
  current_delay : Q
}.

(** [__init__(self, base_delay=2.0, randomize=True)] *)
Definition init (base : Q) (rand : bool) : t :=
  {| base_delay := base;
     randomize := rand;
     last_request_time := None;
     consecutive_successes := 0;
     consecutive_failures := 0;
     current_delay := base |}.

Definition default : t := init 2.0 true.

Definition set_current_delay (d : Q) (s : t) : t :=
  {| base_delay := base_delay s;
     randomize := randomize s;
     last_request_time := last_request_time s;
     consecutive_successes := consecutive_successes s;
     consecutive_failures := consecutive_failures s;
     current_delay := d |}.

Definition set_counters (succ fail : nat) (s : t) : t :=
  {| base_delay := base_delay s;
     randomize := randomize s;
     last_request_time := last_request_time s;
     consecutive_successes := succ;
     consecutive_failures := fail;
     current_delay := current_delay s |}.

Definition on_success (s : t) : t :=
  let s := set_counters (consecutive_successes s + 1) 0 s in
  if 5 <=? consecutive_successes s
  then set_current_delay (Py.max (base_delay s * 0.8) 0.5) s
  else s.

Definition on_failure (error_type : string) (s : t) : t :=
  let s := set_counters 0 (consecutive_failures s + 1) s in
  if String.eqb error_type "rate_limit" || (3 <=? consecutive_failures s)
  then set_current_delay (Py.min (base_delay s * 2) 30.0) s
  else if 5 <=? consecutive_failures s
  then set_current_delay (Py.min (base_delay s * 3) 60.0) s
  else s.

Definition on_blocked (s : t) : t :=
  let s := set_current_delay 60.0 s in
  set_counters (consecutive_successes s) (consecutive_failures s + 10) s.

Definition reset (s : t) : t :=
  {| base_delay := base_delay s;
     randomize := randomize s;
     last_request_time := None;
     consecutive_successes := 0;
     consecutive_failures := 0;
     current_delay := base_delay s |}.

Definition get_current_delay (s : t) : Q := current_delay s.

Definition set_delay (delay : Q) (s : t) : t :=
  let d := Py.max 0.1 delay in
  {| base_delay := d;
     randomize := randomize s;
     last_request_time := last_request_time s;
     consecutive_successes := consecutive_successes s;
     consecutive_failures := consecutive_failures s;
     current_delay := d |}.

(** The feedback calls a client makes, and a run of them. *)
Inductive call : Type :=
| OnSuccess
| OnFailure (error_type : string)
| OnBlocked.

Definition step (s : t) (c : call) : t :=
  match c with
  | OnSuccess => on_success s
  | OnFailure k => on_failure k s
  | OnBlocked => on_blocked s
  end.

Definition run (cs : list call) (s : t) : t := fold_left step cs s.

(** [n] calls of [on_failure(error_type)] in a row. *)
Definition failures (error_type : string) (n : nat) (s : t) : t :=
  Nat.iter n (on_failure error_type) s.

(** The invariant of the feedback calls: both the configured and the
    active delay lie between 0.1 and 60 seconds. *)
Definition in_range (s : t) : Prop :=
  (0.1 <= base_delay s /\ base_delay s <= 60)
  /\ (0.1 <= current_delay s /\ current_delay s <= 60).

(** [wait(self)].  The two readings of [time.time()] and the draw behind
    [random.uniform] are arguments; the result is the argument of
    [time.sleep], [None] when the method does not sleep, and the limiter
    after the call. *)
Definition wait (current_time u end_time : Q) (s : t) : option Q * t :=
  let slept :=
    match last_request_time s with
    | Some last =>
        let elapsed := current_time - last in
        let delay_needed := current_delay s - elapsed in
        if Py.ltb 0 delay_needed then
          if randomize s then
            let variation := delay_needed * 0.25 in
            let actual_delay :=
              delay_needed + Py.uniform (- variation) variation u in
            Some (Py.max 0.1 actual_delay)
          else Some delay_needed
        else None
    | None => None
    end in
  (slept,
   {| base_delay := base_delay s;
      randomize := randomize s;
      last_request_time := Some end_time;
      consecutive_successes := consecutive_successes s;
      consecutive_failures := consecutive_failures s;
      current_delay := current_delay s |}).

(** What a scraping session does with its limiter: it waits before a
    request and reports the outcome after it. *)
Inductive event : Type :=
| Feedback (c : call)
| Wait (current_time u end_time : Q).

Definition handle (s : t) (e : event) : t :=
  match e with
  | Feedback c => step s c
  | Wait current_time u end_time => snd (wait current_time u end_time s)
  end.

Definition session (es : list event) (s : t) : t := fold_left handle es s.

(** The feedback calls of a session, in order. *)
Definition feedback_of (es : list event) : list call :=
  flat_map (fun e => match e with
                     | Feedback c => [c]
                     | Wait _ _ _ => []
                     end) es.

(** [n] calls of [on_success()] in a row. *)
Definition successes (n : nat) (s : t) : t := Nat.iter n on_success s.

(** Two limiters that agree on everything the feedback calls read or
    write; they may differ in [last_request_time]. *)
Definition same_pacing (s1 s2 : t) : Prop :=
  base_delay s1 = base_delay s2
  /\ randomize s1 = randomize s2
  /\ consecutive_successes s1 = consecutive_successes s2
  /\ consecutive_failures s1 = consecutive_failures s2
  /\ current_delay s1 = current_delay s2.

End RateLimiter.

(** ** [class AdaptiveRateLimiter(RateLimiter)] *)

Module AdaptiveRateLimiter.

(** The subclass adds two attributes to those of the parent. *)
Record t : Type := mk {
  limiter : RateLimiter.t;
  response_times : list Q;
  max_response_time_history : nat
}.

(** [__init__(self, base_delay=2.0)] *)
Definition init (base : Q) : t :=
  {| limiter := RateLimiter.init base true;
     response_times := [];
     max_response_time_history := 10 |}.

Definition set_limiter (l : RateLimiter.t) (s : t) : t :=
  {| limiter := l;
     response_times := response_times s;
     max_response_time_history := max_response_time_history s |}.

Definition set_response_times (h : list Q) (s : t) : t :=
  {| limiter := limiter s;
     response_times := h;
     max_response_time_history := max_response_time_history s |}.

Definition current_delay (s : t) : Q := RateLimiter.current_delay (limiter s).

Definition consecutive_successes (s : t) : nat :=
  RateLimiter.consecutive_successes (limiter s).

(** [append] followed by the [pop(0)] that keeps the history bounded. *)
Definition record_time (response_time : Q) (s : t) : t :=
  let s := set_response_times (response_times s ++ [response_time]) s in
  if max_response_time_history s <? length (response_times s)
  then set_response_times (tl (response_times s)) s
  else s.

(** The mean taken on the success path: over the whole retained history.
    Only evaluated under the guard [len(self.response_times) >= 5]. *)
Definition history_mean (s : t) : Q :=
  Py.sum (response_times s) / Py.of_nat (length (response_times s)).

(** The mean taken on the failure path: over the last three entries. *)
Definition recent_mean (s : t) : Q :=
  Py.sum (Py.last_n 3 (response_times s)) / 3.

Definition on_request_complete (response_time : Q) (success : bool) (s : t) : t :=
  let s := record_time response_time s in
  if success then
    let s := set_limiter (RateLimiter.on_success (limiter s)) s in
    if 5 <=? length (response_times s) then
      if Py.ltb (history_mean s) 1.0 && (5 <=? consecutive_successes s)
      then set_limiter
             (RateLimiter.set_current_delay
                (Py.max (current_delay s * 0.9) 0.5) (limiter s)) s
      else s
    else s
  else
    let s := set_limiter (RateLimiter.on_failure "general" (limiter s)) s in
    if 3 <=? length (response_times s) then
      if Py.ltb 5.0 (recent_mean s)
      then set_limiter
             (RateLimiter.set_current_delay
                (Py.min (current_delay s * 1.5) 30.0) (limiter s)) s
      else s
    else s.

(** A run of completed requests, oldest first. *)
Definition run (reqs : list (Q * bool)) (s : t) : t :=
  fold_left (fun s r => on_request_complete (fst r) (snd r) s) reqs s.

(** The quantity the specification names: the mean of the last five
    observed latencies.  The source does not compute it; it is defined
    here only to compare the specification with [history_mean]. *)
Definition spec_mean_of_last_5 (s : t) : Q :=
  Py.sum (Py.last_n 5 (response_times s)) / 5.

End AdaptiveRateLimiter.

(** ** [class UserAgentRotator] *)

Module UserAgentRotator.

Record t : Type := mk {
  user_agents : list string;
  current_index : nat
}.

Definition _get_user_agent_list : list string :=
  [ "Mozilla/5.0 (Windows NT 10.0; Win64; x64) AppleWebKit/537.36 (KHTML, like Gecko) Chrome/120.0.0.0 Safari/537.36";
    "Mozilla/5.0 (Windows NT 10.0; Win64; x64) AppleWebKit/537.36 (KHTML, like Gecko) Chrome/119.0.0.0 Safari/537.36";
    "Mozilla/5.0 (Windows NT 10.0; Win64; x64) AppleWebKit/537.36 (KHTML, like Gecko) Chrome/118.0.0.0 Safari/537.36";
    "Mozilla/5.0 (Macintosh; Intel Mac OS X 10_15_7) AppleWebKit/537.36 (KHTML, like Gecko) Chrome/120.0.0.0 Safari/537.36";
    "Mozilla/5.0 (Macintosh; Intel Mac OS X 10_15_7) AppleWebKit/537.36 (KHTML, like Gecko) Chrome/119.0.0.0 Safari/537.36";
    "Mozilla/5.0 (Windows NT 10.0; Win64; x64; rv:120.0) Gecko/20100101 Firefox/120.0";
    "Mozilla/5.0 (Windows NT 10.0; Win64; x64; rv:119.0) Gecko/20100101 Firefox/119.0";
    "Mozilla/5.0 (Macintosh; Intel Mac OS X 10.15; rv:120.0) Gecko/20100101 Firefox/120.0";
    "Mozilla/5.0 (Macintosh; Intel Mac OS X 10.15; rv:119.0) Gecko/20100101 Firefox/119.0";
    "Mozilla/5.0 (Macintosh; Intel Mac OS X 10_15_7) AppleWebKit/605.1.15 (KHTML, like Gecko) Version/17.1 Safari/605.1.15";
    "Mozilla/5.0 (Macintosh; Intel Mac OS X 10_15_7) AppleWebKit/605.1.15 (KHTML, like Gecko) Version/17.0 Safari/605.1.15";
    "Mozilla/5.0 (Windows NT 10.0; Win64; x64) AppleWebKit/537.36 (KHTML, like Gecko) Chrome/120.0.0.0 Safari/537.36 Edg/120.0.0.0";
    "Mozilla/5.0 (Windows NT 10.0; Win64; x64) AppleWebKit/537.36 (KHTML, like Gecko) Chrome/119.0.0.0 Safari/537.36 Edg/119.0.0.0";
    "Mozilla/5.0 (X11; Linux x86_64) AppleWebKit/537.36 (KHTML, like Gecko) Chrome/120.0.0.0 Safari/537.36";
    "Mozilla/5.0 (X11; Linux x86_64) AppleWebKit/537.36 (KHTML, like Gecko) Chrome/119.0.0.0 Safari/537.36";
    "Mozilla/5.0 (X11; Linux x86_64; rv:120.0) Gecko/20100101 Firefox/120.0";
    "Mozilla/5.0 (X11; Ubuntu; Linux x86_64; rv:120.0) Gecko/20100101 Firefox/120.0"
  ]%string.

(** [__init__(self)] *)
Definition init : t :=
  {| user_agents := _get_user_agent_list; current_index := 0 |}.

(** [r] is the draw of [random.choice]. *)
Definition get_random_agent (r : nat) (s : t) : Py.result string :=
  Py.choice r (user_agents s).

Definition get_next_agent (s : t) : Py.result (string * t) :=
  agent <- Py.index (user_agents s) (current_index s) ;;
  Py.Ok (agent,
         {| user_agents := user_agents s;
            current_index := (current_index s + 1) mod length (user_agents s) |}).

Definition add_custom_agent (user_agent : string) (s : t) : t :=
  if negb (Py.mem user_agent (user_agents s))
  then {| user_agents := user_agents s ++ [user_agent];
          current_index := current_index s |}
  else s.

Definition get_agent_count (s : t) : nat := length (user_agents s).

(** The condition of the comprehension in [get_desktop_agent]. *)
Definition is_desktop (ua : string) : bool :=
  negb (Py.contains "Mobile" ua)
  && negb (Py.contains "iPhone" ua)
  && negb (Py.contains "Android" ua).

Definition get_desktop_agent (r : nat) (s : t) : Py.result string :=
  let desktop_agents := filter is_desktop (user_agents s) in
  Py.choice r desktop_agents.

(** [n] successive [get_next_agent()] calls: what they returned, in
    order, and the state they leave. *)
Fixpoint next_agents (n : nat) (s : t) : Py.result (list string * t) :=
  match n with
  | O => Py.Ok ([], s)
  | S n' =>
      p <- get_next_agent s ;;
      q <- next_agents n' (snd p) ;;
      Py.Ok (fst p :: fst q, snd q)
  end.

(** The local list of [get_mobile_agent]. *)
Definition mobile_agents : list string :=
  [ "Mozilla/5.0 (iPhone; CPU iPhone OS 17_1 like Mac OS X) AppleWebKit/605.1.15 (KHTML, like Gecko) Version/17.1 Mobile/15E148 Safari/604.1";
    "Mozilla/5.0 (iPhone; CPU iPhone OS 16_6 like Mac OS X) AppleWebKit/605.1.15 (KHTML, like Gecko) Version/16.6 Mobile/15E148 Safari/604.1";
    "Mozilla/5.0 (Linux; Android 14; SM-G998B) AppleWebKit/537.36 (KHTML, like Gecko) Chrome/120.0.0.0 Mobile Safari/537.36";
    "Mozilla/5.0 (Linux; Android 13; Pixel 7) AppleWebKit/537.36 (KHTML, like Gecko) Chrome/120.0.0.0 Mobile Safari/537.36";
    "Mozilla/5.0 (Mobile; rv:120.0) Gecko/120.0 Firefox/120.0";
    "Mozilla/5.0 (iPad; CPU OS 17_1 like Mac OS X) AppleWebKit/605.1.15 (KHTML, like Gecko) Version/17.1 Mobile/15E148 Safari/604.1"
  ]%string.

Definition get_mobile_agent (r : nat) (s : t) : Py.result string :=
  Py.choice r mobile_agents.

(** A client's use of the rotation: sequential draws and additions to the
    pool, in any order. *)
Inductive op : Type :=
| Next
| Add (user_agent : string).

(** The agents the [Next] calls returned, in order, and the final state. *)
Fixpoint exec (ops : list op) (s : t) : Py.result (list string * t) :=
  match ops with
  | [] => Py.Ok ([], s)
  | Next :: ops' =>
      p <- get_next_agent s ;;
      q <- exec ops' (snd p) ;;
      Py.Ok (fst p :: fst q, snd q)
  | Add ua :: ops' => exec ops' (add_custom_agent ua s)
  end.

(** [add_custom_agent] for each of [extras], in order. *)
Definition add_all (extras : list string) (s : t) : t :=
  fold_left (fun s ua => add_custom_agent ua s) extras s.

End UserAgentRotator.

(** ** [class SmartUserAgentRotator(UserAgentRotator)] *)

Module SmartUserAgentRotator.

(** The inner dict [{'success': _, 'total': _}]. *)
Record stats : Type := mk_stats {
  success : nat;
  total : nat
}.

Record t : Type := mk {
  rotator : UserAgentRotator.t;
  agent_success_rates : Py.dict stats;
  agent_usage_count : Py.dict nat
}.

(** [__init__(self)] *)
Definition init : t :=
  {| rotator := UserAgentRotator.init;
     agent_success_rates := [];
     agent_usage_count := [] |}.

Definition get_random_agent (r : nat) (s : t) : Py.result string :=
  UserAgentRotator.get_random_agent r (rotator s).

(** [stats['success'] / stats['total']]; evaluated only where a guard on
    [total] has excluded a zero divisor. *)
Definition rate (d : stats) : Q := Py.of_nat (success d) / Py.of_nat (total d).

(** One iteration of the loop of [get_best_agent], on the pair
    [(best_agent, best_rate)]. *)
Definition best_step (acc : option string * Q) (item : string * stats)
  : option string * Q :=
  let (agent, d) := item in
  if 5 <=? total d then
    if Py.ltb (snd acc) (rate d) then (Some agent, rate d) else acc
  else acc.

Definition best_loop (items : Py.dict stats) : option string * Q :=
  fold_left best_step items (None, 0%Q).

(** Truth value of [best_agent], which is [None] or a string. *)
Definition truthy (best_agent : option string) : bool :=
  match best_agent with
  | None => false
  | Some EmptyString => false
  | Some (String _ _) => true
  end.

Definition get_best_agent (r : nat) (s : t) : Py.result string :=
  match agent_success_rates s with
  | [] => get_random_agent r s
  | _ :: _ =>
      let (best_agent, best_rate) := best_loop (agent_success_rates s) in
      match best_agent with
      | Some agent => if truthy best_agent then Py.Ok agent
                      else get_random_agent r s
      | None => get_random_agent r s
      end
  end.

Definition record_result (user_agent : string) (succeeded : bool) (s : t) : t :=
  let rates :=
    if negb (Py.has_key user_agent (agent_success_rates s))
    then Py.set user_agent {| success := 0; total := 0 |} (agent_success_rates s)
    else agent_success_rates s in
  let bump_total (d : stats) := {| success := success d; total := total d + 1 |} in
  let bump_success (d : stats) := {| success := success d + 1; total := total d |} in
  let rates :=
    match Py.get user_agent rates with
    | Some d => Py.set user_agent (bump_total d) rates
    | None => rates
    end in
  let rates :=
    if succeeded then
      match Py.get user_agent rates with
      | Some d => Py.set user_agent (bump_success d) rates
      | None => rates
      end
    else rates in
  let used :=
    match Py.get user_agent (agent_usage_count s) with
    | Some n => n
    | None => 0%nat
    end in
  {| rotator := rotator s;
     agent_success_rates := rates;
     agent_usage_count := Py.set user_agent (used + 1)%nat (agent_usage_count s) |}.

(** A value of the dict returned by [get_stats]. *)
Record report : Type := mk_report {
  success_rate : Q;
  total_uses : nat;
  successes : nat
}.

(** The key under which [get_stats] files an agent. *)
Definition stats_key (agent : string) : string :=
  (Py.take 50 agent ++ "...")%string.

Definition stats_step (acc : Py.dict report) (item : string * stats)
  : Py.dict report :=
  let (agent, data) := item in
  if 0 <? total data
  then Py.set (stats_key agent)
         {| success_rate := rate data;
            total_uses := total data;
            successes := success data |} acc
  else acc.

(** The returned dict, and the rotator after the call. *)
Definition get_stats (s : t) : Py.dict report * t :=
  (fold_left stats_step (agent_success_rates s) [], s).

(** A run of [record_result] calls, oldest first. *)
Definition record_all (results : list (string * bool)) (s : t) : t :=
  fold_left (fun s r => record_result (fst r) (snd r) s) results s.

(** The entry of [user_agent] before a [record_result], a fresh one when
    the agent is new. *)
Definition entry_of (user_agent : string) (s : t) : stats :=
  match Py.get user_agent (agent_success_rates s) with
  | Some d => d
  | None => {| success := 0; total := 0 |}
  end.

(** Every tracked agent has been tried, and has not succeeded more often
    than it was tried. *)
Definition counts_ok (s : t) : Prop :=
  forall ua d, In (ua, d) (agent_success_rates s) ->
               (success d <= total d /\ 1 <= total d)%nat.

(** What the specification asks of the agent [get_best_agent] returns:
    [a], with statistics [da], is tracked with at least 5 attempts, no
    agent with at least 5 attempts has a higher rate, and those met
    earlier in the iteration have a strictly lower one. *)
Definition first_with_highest_rate
  (items : Py.dict stats) (a : string) (da : stats) : Prop :=
  exists l1 l2,
    items = l1 ++ (a, da) :: l2
    /\ (5 <= total da)%nat
    /\ (forall b db, In (b, db) l1 -> (5 <= total db)%nat -> rate db < rate da)
    /\ (forall b db, In (b, db) l2 -> (5 <= total db)%nat -> rate db <= rate da).

(** How often [record_result(ua, _)] and [record_result(ua, True)] occur
    in a run of calls. *)
Definition attempts_of (ua : string) (results : list (string * bool)) : nat :=
  length (filter (fun r => String.eqb (fst r) ua) results).

Definition successes_of (ua : string) (results : list (string * bool)) : nat :=
  length (filter (fun r => String.eqb (fst r) ua && snd r) results).

End SmartUserAgentRotator.

(** ** [ImprovedEbayScraper._is_valid_page], the page classifier of the
    fetch loop that reports to the limiter *)

Module ImprovedEbayScraper.

Definition security_indicators : list string :=
  [ "checking your browser";
    "security check";
    "blocked";
    "access denied";
    "captcha";
    "please wait while we check your browser" ]%string.

Definition _is_valid_page (page_text : string) : bool :=
  negb (existsb (fun indicator => Py.contains indicator page_text)
          security_indicators).

End ImprovedEbayScraper.

(** * Properties *)

(** ** Comparisons, [min] and [max] *)

Lemma ltb_lt (a b : Q) : Py.ltb a b = true <-> a < b.
Proof.
  unfold Py.ltb. rewrite negb_true_iff, <- not_true_iff_false, Qle_bool_iff.
  split; [apply Qnot_le_lt | apply Qlt_not_le].
Qed.

Lemma ltb_ge (a b : Q) : Py.ltb a b = false <-> b <= a.
Proof.
  unfold Py.ltb. rewrite negb_false_iff. apply Qle_bool_iff.
Qed.

Lemma max_cases (a b : Q) :
  (a < b /\ Py.max a b = b) \/ (b <= a /\ Py.max a b = a).
Proof.
  unfold Py.max. destruct (Py.ltb a b) eqn:E.
  - left. split; [now apply ltb_lt | reflexivity].
  - right. split; [now apply ltb_ge | reflexivity].
Qed.

Lemma min_cases (a b : Q) :
  (b < a /\ Py.min a b = b) \/ (a <= b /\ Py.min a b = a).
Proof.
  unfold Py.min. destruct (Py.ltb b a) eqn:E.
  - left. split; [now apply ltb_lt | reflexivity].
  - right. split; [now apply ltb_ge | reflexivity].
Qed.

(** The builtins agree with the mathematical minimum and maximum. *)
Lemma max_Qmax (a b : Q) : Py.max a b == Qmax a b.
Proof.
  destruct (max_cases a b) as [[H ->] | [H ->]].
  - symmetry. apply Q.max_r. now apply Qlt_le_weak.
  - symmetry. now apply Q.max_l.
Qed.

Lemma min_Qmin (a b : Q) : Py.min a b == Qmin a b.
Proof.
  destruct (min_cases a b) as [[H ->] | [H ->]].
  - symmetry. apply Q.min_r. now apply Qlt_le_weak.
  - symmetry. now apply Q.min_l.
Qed.

(** ** The rate limiter *)

Section RateLimiterFacts.

Import RateLimiter.

(** No feedback call touches [base_delay]. *)
Lemma step_base_delay (s : t) (c : call) : base_delay (step s c) = base_delay s.
Proof.
  destruct c as [ | k | ]; cbn [step].
  - unfold on_success. now destruct (_ <=? _).
  - unfold on_failure. destruct (_ || _); [reflexivity|]. now destruct (_ <=? _).
  - reflexivity.
Qed.

Lemma run_base_delay (cs : list call) (s : t) :
  base_delay (run cs s) = base_delay s.
Proof.
  revert s. induction cs as [ | c cs IH]; intros s; [reflexivity|].
  cbn. fold (run cs (step s c)). now rewrite IH, step_base_delay.
Qed.

Lemma step_in_range (s : t) (c : call) : in_range s -> in_range (step s c).
Proof.
  unfold in_range. intros [[Hb1 Hb2] [Hc1 Hc2]].
  rewrite step_base_delay. split; [now split|].
  destruct c as [ | k | ]; cbn [step].
  - unfold on_success. destruct (_ <=? _); cbn; [|now split].
    destruct (max_cases (base_delay s * 0.8) 0.5) as [[H ->] | [H ->]];
      split; lra.
  - unfold on_failure. destruct (_ || _); [|destruct (_ <=? _)]; cbn.
    + destruct (min_cases (base_delay s * 2) 30.0) as [[H ->] | [H ->]];
        split; lra.
    + destruct (min_cases (base_delay s * 3) 60.0) as [[H ->] | [H ->]];
        split; lra.
    + now split.
  - cbn. split; lra.
Qed.

Lemma run_in_range (cs : list call) (s : t) : in_range s -> in_range (run cs s).
Proof.
  revert s. induction cs as [ | c cs IH]; intros s Hs; [exact Hs|].
  cbn. fold (run cs (step s c)). apply IH. now apply step_in_range.
Qed.

(** A failure report never changes the success-side of the state beyond
    zeroing the streak, and the failure counter goes up by one. *)
Lemma on_failure_counters (k : string) (s : t) :
  consecutive_failures (on_failure k s) = (consecutive_failures s + 1)%nat
  /\ consecutive_successes (on_failure k s) = 0%nat
  /\ base_delay (on_failure k s) = base_delay s.
Proof.
  unfold on_failure. destruct (_ || _); [now cbn|]. now destruct (_ <=? _).
Qed.

Lemma failures_S (k : string) (n : nat) (s : t) :
  failures k (S n) s = on_failure k (failures k n s).
Proof. reflexivity. Qed.

Lemma failures_counters (k : string) (n : nat) (s : t) :
  consecutive_failures (failures k n s) = (consecutive_failures s + n)%nat
  /\ base_delay (failures k n s) = base_delay s.
Proof.
  induction n as [ | n [IHf IHb]].
  - cbn. split; [lia | reflexivity].
  - rewrite failures_S.
    destruct (on_failure_counters k (failures k n s)) as (Hf & _ & Hb).
    rewrite Hf, Hb, IHf, IHb. split; [lia | reflexivity].
Qed.

(** From the third failure of a streak on, the first branch of
    [on_failure] is the one taken: the [elif] below it is never reached. *)
Lemma on_failure_third (k : string) (s : t) :
  (2 <= consecutive_failures s)%nat ->
  current_delay (on_failure k s) = Py.min (base_delay s * 2) 30.0.
Proof.
  intros H. unfold on_failure. cbn [consecutive_failures set_counters].
  replace (3 <=? consecutive_failures s + 1)%nat with true
    by (symmetry; apply Nat.leb_le; lia).
  now rewrite orb_true_r.
Qed.

Lemma failures_from_third (k : string) (n : nat) (s : t) :
  (3 <= n)%nat ->
  current_delay (failures k n s) = Py.min (base_delay s * 2) 30.0.
Proof.
  intros H. destruct n as [ | n]; [lia|]. rewrite failures_S.
  destruct (failures_counters k n s) as [Hf Hb].
  rewrite on_failure_third, Hb; [reflexivity | lia].
Qed.

End RateLimiterFacts.

Section RateLimiterClaims.

Import RateLimiter.

(** C1, as amended.  For a limiter constructed with a base delay between
    0.1 and 60 seconds, [current_delay] is at least 0.1 and at most 60
    after every sequence of [on_success], [on_failure] and [on_blocked]
    calls. *)
Theorem current_delay_stays_in_range
  (base : Q) (rand : bool) (cs : list call) :
  0.1 <= base -> base <= 60 ->
  0.1 <= current_delay (run cs (init base rand))
  /\ current_delay (run cs (init base rand)) <= 60.
Proof.
  intros Hlo Hhi.
  assert (H : in_range (init base rand)) by (unfold in_range; cbn; tauto).
  apply (run_in_range cs) in H. exact (proj2 H).
Qed.

Lemma current_delay_stays_in_range_witness :
  0.1 <= current_delay
           (run [OnSuccess; OnFailure "rate_limit"; OnBlocked; OnSuccess]
                (init 2.0 true))
  /\ current_delay
       (run [OnSuccess; OnFailure "rate_limit"; OnBlocked; OnSuccess]
            (init 2.0 true)) <= 60.
Proof.
  apply (current_delay_stays_in_range 2.0 true
           [OnSuccess; OnFailure "rate_limit"; OnBlocked; OnSuccess]).
  - unfold Qle. simpl. lia.
  - unfold Qle. simpl. lia.
Defined.

(** C1 as stated fails: the constructor stores any base delay unclamped,
    and the first calls of a run leave [current_delay] at that value.  A
    limiter built with 0.05 is below 0.1 after one success; one built with
    100 is above 60 after one failure. *)
Lemma current_delay_leaves_range :
  ~ (0.1 <= current_delay (run [OnSuccess] (init 0.05 true)))
  /\ ~ (current_delay (run [OnFailure "general"] (init 100 true)) <= 60).
Proof.
  split; intros H; vm_compute in H; now apply H.
Qed.

(** The range of C1 is exactly the range of the base delay: a limiter
    whose delay stays in [0.1, 60] on every run was built with a base
    delay in that range. *)
Lemma in_range_only_if (base : Q) (rand : bool) :
  (forall cs, 0.1 <= current_delay (run cs (init base rand))
              /\ current_delay (run cs (init base rand)) <= 60) ->
  0.1 <= base /\ base <= 60.
Proof.
  intros H. exact (H [OnSuccess]).
Qed.

(** C2, evaluated on the source.  With the default base delay of 2.0, five
    [on_failure("general")] calls in a row leave [current_delay] at 4.0,
    which is [min(base_delay * 2, 30)], where the claim gives
    [min(base_delay * 3, 60)], that is 6.0. *)
Theorem five_general_failures_only_double :
  current_delay (failures "general" 5 default) == 4.0
  /\ Py.min (base_delay default * 3) 60.0 == 6.0
  /\ ~ current_delay (failures "general" 5 default)
       == Py.min (base_delay default * 3) 60.0.
Proof.
  repeat split; try reflexivity.
  intros H. vm_compute in H. discriminate H.
Qed.

(** The same for every limiter and every streak of five or more: the
    tripling branch is shadowed by the test [consecutive_failures >= 3]
    above it. *)
Lemma long_streak_only_doubles (s : t) (n : nat) :
  (5 <= n)%nat ->
  current_delay (failures "general" n s) = Py.min (base_delay s * 2) 30.0.
Proof.
  intros H. apply failures_from_third. lia.
Qed.

(** C5.  One [on_failure("rate_limit")] sets [current_delay] to
    [min(base_delay * 2, 30)] whatever the streak counters were, and so do
    three [on_failure("general")] calls in a row. *)
Theorem on_failure_doubles (s : t) :
  current_delay (on_failure "rate_limit" s) = Py.min (base_delay s * 2) 30.0
  /\ current_delay (failures "general" 3 s) = Py.min (base_delay s * 2) 30.0.
Proof.
  split.
  - reflexivity.
  - apply failures_from_third. lia.
Qed.

(** C9.  [on_blocked] leaves [consecutive_successes] as it was, so the
    success that follows a block signal continues the streak: it counts
    one more than the streak before the signal, and it relaxes the delay
    exactly when that count has reached 5. *)
Theorem on_blocked_keeps_success_streak (s : t) :
  consecutive_successes (on_blocked s) = consecutive_successes s
  /\ consecutive_successes (on_success (on_blocked s))
     = S (consecutive_successes s)
  /\ current_delay (on_success (on_blocked s))
     = if (5 <=? S (consecutive_successes s))%nat
       then Py.max (base_delay s * 0.8) 0.5
       else 60.0.
Proof.
  split; [reflexivity|].
  unfold on_success, on_blocked.
  cbn [consecutive_successes set_counters set_current_delay base_delay].
  replace (consecutive_successes s + 1)%nat with (S (consecutive_successes s))
    by lia.
  destruct (5 <=? S (consecutive_successes s))%nat; split; reflexivity.
Qed.

End RateLimiterClaims.

(** ** The latency-aware limiter *)

Section AdaptiveRateLimiterClaims.

Import AdaptiveRateLimiter.

(** What a call does to the history does not depend on its outcome. *)
Lemma on_request_complete_history (rt : Q) (ok : bool) (s : t) :
  response_times (on_request_complete rt ok s)
  = response_times (record_time rt s).
Proof.
  unfold on_request_complete. destruct ok.
  - destruct (5 <=? _)%nat; [|reflexivity]. now destruct (_ && _).
  - destruct (3 <=? _)%nat; [|reflexivity]. now destruct (Py.ltb _ _).
Qed.

Lemma on_request_complete_streak (rt : Q) (s : t) :
  consecutive_successes (on_request_complete rt true s)
  = S (consecutive_successes s).
Proof.
  assert (E : RateLimiter.consecutive_successes
                (RateLimiter.on_success (limiter (record_time rt s)))
              = S (consecutive_successes s)).
  { unfold RateLimiter.on_success, record_time, consecutive_successes.
    destruct (_ <? _)%nat; destruct (5 <=? _)%nat; cbn; lia. }
  unfold on_request_complete.
  destruct (5 <=? _)%nat; [destruct (_ && _)|]; exact E.
Qed.

(** The delay after a successful call: the streak rule of [on_success]
    first, then the latency rule on top of its result, under the source's
    own condition. *)
Lemma on_request_complete_success_delay (rt : Q) (s : t) :
  let s' := on_request_complete rt true s in
  let d := RateLimiter.current_delay (RateLimiter.on_success (limiter s)) in
  current_delay s'
  = if (5 <=? length (response_times s'))%nat
       && Py.ltb (history_mean s') 1.0
       && (5 <=? consecutive_successes s')%nat
    then Py.max (d * 0.9) 0.5
    else d.
Proof.
  cbv zeta.
  unfold history_mean.
  rewrite on_request_complete_history, on_request_complete_streak.
  assert (El : limiter (record_time rt s) = limiter s).
  { unfold record_time. now destruct (_ <? _)%nat. }
  unfold on_request_complete.
  cbn [response_times set_limiter limiter].
  unfold history_mean, consecutive_successes, current_delay.
  cbn [response_times set_limiter limiter]. rewrite El.
  assert (Ec : RateLimiter.consecutive_successes
                 (RateLimiter.on_success (limiter s))
               = S (RateLimiter.consecutive_successes (limiter s))).
  { unfold RateLimiter.on_success.
    destruct (5 <=? _)%nat; cbn; lia. }
  rewrite Ec.
  destruct (5 <=? length (response_times (record_time rt s)))%nat;
    [|reflexivity].
  cbn [andb]. now destruct (_ && _).
Qed.

(** C3, as amended.  After a successful [on_request_complete], if the
    retained history (at most the last 10 latencies, the new one included)
    holds at least 5 entries, the mean over that whole history is below
    1.0 and [consecutive_successes] is at least 5, then [current_delay] is
    the delay [on_success] left, reduced by 10% and floored at 0.5. *)
Theorem fast_history_reduces_delay (rt : Q) (s : t) :
  (5 <= length (response_times (on_request_complete rt true s)))%nat ->
  history_mean (on_request_complete rt true s) < 1.0 ->
  (5 <= consecutive_successes (on_request_complete rt true s))%nat ->
  current_delay (on_request_complete rt true s)
  = Py.max
      (RateLimiter.current_delay (RateLimiter.on_success (limiter s)) * 0.9)
      0.5.
Proof.
  intros Hlen Hmean Hstreak.
  rewrite (on_request_complete_success_delay rt s).
  apply Nat.leb_le in Hlen, Hstreak. apply ltb_lt in Hmean.
  now rewrite Hlen, Hmean, Hstreak.
Qed.

Lemma fast_history_reduces_delay_witness :
  current_delay
    (on_request_complete 0.1 true (run (repeat (0.1, true) 4) (init 2.0)))
  = Py.max
      (RateLimiter.current_delay
         (RateLimiter.on_success
            (limiter (run (repeat (0.1, true) 4) (init 2.0)))) * 0.9)
      0.5.
Proof.
  apply (fast_history_reduces_delay 0.1
           (run (repeat (0.1, true) 4) (init 2.0))).
  - vm_compute. lia.
  - vm_compute. reflexivity.
  - vm_compute. lia.
Defined.

(** C3 as stated fails: the source averages the whole retained history,
    not its last five entries.  After five successes of 10 s each and then
    five of 0.1 s, the last five latencies average 0.1 s and the streak is
    10, yet the whole history averages 5.05 s and the delay stays at the
    1.6 s that [on_success] set. *)
Lemma fast_last_5_without_reduction :
  let s := run (repeat (10.0, true) 5 ++ repeat (0.1, true) 4) (init 2.0) in
  let s' := on_request_complete 0.1 true s in
  spec_mean_of_last_5 s' < 1.0
  /\ (5 <= consecutive_successes s')%nat
  /\ current_delay s' == 1.6
  /\ ~ current_delay s'
       == Py.max
            (RateLimiter.current_delay
               (RateLimiter.on_success (limiter s)) * 0.9) 0.5.
Proof.
  cbv zeta. repeat split.
  - vm_compute. lia.
  - intros H. vm_compute in H. discriminate H.
Qed.

End AdaptiveRateLimiterClaims.

(** ** The rotator *)

Section UserAgentRotatorFacts.

Import UserAgentRotator.

Lemma choice_nonempty {A : Type} (r : nat) (seq : list A) :
  seq <> [] -> exists x, Py.choice r seq = Py.Ok x /\ In x seq.
Proof.
  intros Hne. destruct seq as [ | a seq]; [contradiction|].
  unfold Py.choice, Py.index.
  destruct (nth_error (a :: seq) (r mod length (a :: seq))) as [x | ] eqn:E.
  - exists x. split; [reflexivity|]. eapply nth_error_In; eassumption.
  - apply nth_error_None in E.
    pose proof (Nat.mod_upper_bound r (length (a :: seq))) as Hlt.
    cbn [length] in *. lia.
Qed.

Lemma firstn_skipn_cons {A : Type} (pool : list A) (c n : nat) (x : A) :
  nth_error pool c = Some x ->
  firstn (S n) (skipn c pool) = x :: firstn n (skipn (S c) pool).
Proof.
  revert c. induction pool as [ | a pool IH]; intros c H.
  - destruct c; discriminate H.
  - destruct c as [ | c].
    + injection H as ->. reflexivity.
    + cbn [nth_error] in H. cbn [skipn]. now apply IH.
Qed.

(** [n] calls from cursor [c], as long as they stay within one pass over
    the pool: the [n] entries from position [c] on, in pool order. *)
Lemma next_agents_within_pass (pool : list string) (n c : nat) :
  (c + n <= length pool)%nat ->
  (c < length pool \/ n = 0)%nat ->
  next_agents n {| user_agents := pool; current_index := c |}
  = Py.Ok (firstn n (skipn c pool),
           {| user_agents := pool;
              current_index := match n with
                               | O => c
                               | S _ => (c + n) mod length pool
                               end |}).
Proof.
  revert c. induction n as [ | n IH]; intros c Hle Hlt.
  - reflexivity.
  - destruct Hlt as [Hlt | Hn]; [|discriminate Hn].
    destruct (nth_error pool c) as [x | ] eqn:E;
      [|apply nth_error_None in E; lia].
    cbn [next_agents]. unfold get_next_agent, Py.index.
    cbn [user_agents current_index]. rewrite E. cbn [Py.bind fst snd].
    rewrite (firstn_skipn_cons pool c n x E).
    destruct n as [ | n].
    + cbn [next_agents Py.bind fst snd firstn]. reflexivity.
    + rewrite (Nat.mod_small (c + 1) (length pool)) by lia.
      rewrite IH by lia. cbn [Py.bind fst snd].
      replace (c + 1 + S n)%nat with (c + S (S n))%nat by lia.
      replace (c + 1)%nat with (S c) by lia. reflexivity.
Qed.

(** One full pass from cursor 0 returns the pool and restores the state. *)
Lemma next_agents_full_pass (s : t) :
  current_index s = 0%nat ->
  next_agents (length (user_agents s)) s = Py.Ok (user_agents s, s).
Proof.
  destruct s as [pool c]. cbn [current_index user_agents]. intros ->.
  rewrite next_agents_within_pass by (destruct pool; cbn [length]; lia).
  cbn [skipn Nat.add]. rewrite firstn_all.
  destruct pool as [ | a pool]; [reflexivity|].
  cbn [length]. now rewrite Nat.Div0.mod_same.
Qed.

Lemma next_agents_add (n m : nat) (s : t) :
  next_agents (n + m) s
  = (p <- next_agents n s ;;
     q <- next_agents m (snd p) ;;
     Py.Ok (fst p ++ fst q, snd q))%list.
Proof.
  revert s. induction n as [ | n IH]; intros s.
  - cbn [Nat.add next_agents Py.bind fst snd app].
    destruct (next_agents m s) as [[l s'] | e]; reflexivity.
  - cbn [Nat.add next_agents].
    destruct (get_next_agent s) as [[x s1] | e]; [|reflexivity].
    cbn [Py.bind fst snd]. rewrite IH.
    destruct (next_agents n s1) as [[l s2] | e]; [|reflexivity].
    cbn [Py.bind fst snd].
    destruct (next_agents m s2) as [[l' s3] | e]; reflexivity.
Qed.

Lemma filter_none {A : Type} (f : A -> bool) (l : list A) :
  (forall x, In x l -> f x = false) -> filter f l = [].
Proof.
  induction l as [ | a l IH]; intros H; [reflexivity|].
  cbn [filter]. rewrite (H a (or_introl eq_refl)).
  apply IH. intros x Hx. apply H. now right.
Qed.

(** The pool after any number of [add_custom_agent] calls still begins
    with the built-in list. *)
Lemma add_custom_agent_extends (ua : string) (s : t) :
  exists extra, user_agents (add_custom_agent ua s) = user_agents s ++ extra.
Proof.
  unfold add_custom_agent. destruct (negb _).
  - now exists [ua].
  - exists []. now rewrite app_nil_r.
Qed.

End UserAgentRotatorFacts.

Section UserAgentRotatorClaims.

Import UserAgentRotator.

(** C6.  When no entry of the pool passes the desktop filter,
    [get_desktop_agent] does not return: [random.choice] raises on the
    empty selection and nothing in the method catches it.  The exception
    is Python's [IndexError]; the specification calls the condition
    EmptyPoolError. *)
Theorem get_desktop_agent_no_match (r : nat) (s : t) :
  (forall ua, In ua (user_agents s) -> is_desktop ua = false) ->
  get_desktop_agent r s = Py.Raise Py.IndexError.
Proof.
  intros H. unfold get_desktop_agent. now rewrite (filter_none _ _ H).
Qed.

Lemma get_desktop_agent_no_match_witness :
  get_desktop_agent 3
    {| user_agents :=
         [ "Mozilla/5.0 (iPhone; CPU iPhone OS 17_1 like Mac OS X) AppleWebKit/605.1.15 (KHTML, like Gecko) Version/17.1 Mobile/15E148 Safari/604.1";
           "Mozilla/5.0 (Linux; Android 13; Pixel 7) AppleWebKit/537.36 (KHTML, like Gecko) Chrome/120.0.0.0 Mobile Safari/537.36" ]%string;
       current_index := 0 |}
  = Py.Raise Py.IndexError.
Proof.
  apply get_desktop_agent_no_match.
  cbn [user_agents]. intros ua [<- | [<- | []]]; reflexivity.
Defined.

(** A rotator that is only used through its methods never gets there:
    every built-in entry is a desktop one, and [add_custom_agent] only
    appends. *)
Lemma get_desktop_agent_builtin (r : nat) (extras : list string) :
  exists ua,
    get_desktop_agent r
      (fold_left (fun s ua => add_custom_agent ua s) extras init) = Py.Ok ua
    /\ is_desktop ua = true.
Proof.
  assert (Hpool : forall s,
    (exists l, user_agents s = _get_user_agent_list ++ l) ->
    exists l, user_agents
                (fold_left (fun s ua => add_custom_agent ua s) extras s)
              = _get_user_agent_list ++ l).
  { induction extras as [ | ua extras IH]; intros s Hs; [exact Hs|].
    cbn [fold_left]. apply IH.
    destruct Hs as [l Hl].
    destruct (add_custom_agent_extends ua s) as [extra He].
    exists (l ++ extra). now rewrite He, Hl, app_assoc. }
  destruct (Hpool init) as [l Hl]; [exists []; now rewrite app_nil_r|].
  unfold get_desktop_agent. rewrite Hl, filter_app.
  destruct (choice_nonempty r
              (filter is_desktop _get_user_agent_list ++ filter is_desktop l))
    as (ua & Hc & Hin).
  - vm_compute. discriminate.
  - exists ua. split; [exact Hc|].
    rewrite <- filter_app in Hin. now apply filter_In in Hin.
Qed.

(** C7.  From cursor 0, as many [get_next_agent] calls as the pool has
    entries return the pool itself, entry by entry in pool order, and
    bring the rotator back to the state it started from; hence any number
    of such blocks returns that many copies of the pool. *)
Theorem next_agents_cycle (s : t) (k : nat) :
  current_index s = 0%nat ->
  next_agents (length (user_agents s)) s = Py.Ok (user_agents s, s)
  /\ next_agents (k * length (user_agents s)) s
     = Py.Ok (concat (repeat (user_agents s) k), s).
Proof.
  intros H0. split; [now apply next_agents_full_pass|].
  induction k as [ | k IH]; [reflexivity|].
  cbn [Nat.mul repeat concat].
  rewrite next_agents_add, (next_agents_full_pass s H0).
  cbn [Py.bind fst snd]. rewrite IH. reflexivity.
Qed.

Lemma next_agents_cycle_witness :
  next_agents (length (user_agents init)) init
  = Py.Ok (user_agents init, init)
  /\ next_agents (2 * length (user_agents init)) init
     = Py.Ok (concat (repeat (user_agents init) 2), init).
Proof.
  apply (next_agents_cycle init 2). reflexivity.
Defined.

(** The cursor after one call is [(cursor + 1) mod N]. *)
Lemma get_next_agent_cursor (s s' : t) (ua : string) :
  get_next_agent s = Py.Ok (ua, s') ->
  nth_error (user_agents s) (current_index s) = Some ua
  /\ user_agents s' = user_agents s
  /\ current_index s' = ((current_index s + 1) mod length (user_agents s))%nat.
Proof.
  unfold get_next_agent, Py.index.
  destruct (nth_error _ _) as [x | ]; [|discriminate].
  cbn [Py.bind]. intros H. injection H as -> <-. now cbn.
Qed.

(** In a pool without repeated entries, as [add_custom_agent] keeps it, one
    pass returns each of its strings exactly once. *)
Lemma full_pass_once (s : t) (ua : string) :
  NoDup (user_agents s) ->
  current_index s = 0%nat ->
  In ua (user_agents s) ->
  exists l, next_agents (length (user_agents s)) s = Py.Ok (l, s)
            /\ count_occ string_dec l ua = 1%nat.
Proof.
  intros Hnd H0 Hin. exists (user_agents s).
  split; [now apply next_agents_full_pass|].
  now apply NoDup_count_occ'.
Qed.

Lemma builtin_NoDup : NoDup _get_user_agent_list.
Proof.
  apply (NoDup_count_occ' string_dec). intros ua Hin.
  repeat (destruct Hin as [<- | Hin]; [vm_compute; reflexivity|]).
  destruct Hin.
Qed.

Lemma add_custom_agent_NoDup (ua : string) (s : t) :
  NoDup (user_agents s) -> NoDup (user_agents (add_custom_agent ua s)).
Proof.
  intros Hnd. unfold add_custom_agent, Py.mem.
  destruct (existsb (String.eqb ua) (user_agents s)) eqn:E; cbn [negb];
    [exact Hnd|].
  cbn [user_agents]. apply NoDup_app; [exact Hnd | repeat constructor; auto |].
  intros x Hx [<- | []].
  assert (Ht : existsb (String.eqb ua) (user_agents s) = true).
  { apply existsb_exists. exists ua. split; [exact Hx | apply String.eqb_refl]. }
  congruence.
Qed.

End UserAgentRotatorClaims.

(** ** Dictionaries *)

Section DictFacts.

Context {V : Type}.
Implicit Types (k : string) (v : V) (d : Py.dict V).

Lemma get_set_same k v d : Py.get k (Py.set k v d) = Some v.
Proof.
  induction d as [ | [k' v'] d IH]; cbn [Py.set Py.get].
  - now rewrite String.eqb_refl.
  - destruct (String.eqb k k') eqn:E; cbn [Py.get]; rewrite E; auto.
Qed.

Lemma get_set_other k k' v d :
  k <> k' -> Py.get k (Py.set k' v d) = Py.get k d.
Proof.
  intros Hne. induction d as [ | [k0 v0] d IH]; cbn [Py.set Py.get].
  - apply String.eqb_neq in Hne. now rewrite Hne.
  - destruct (String.eqb k' k0) eqn:E; cbn [Py.get].
    + apply String.eqb_eq in E. subst k0.
      apply String.eqb_neq in Hne. now rewrite Hne.
    + now rewrite IH.
Qed.

Lemma set_set k v v' d : Py.set k v' (Py.set k v d) = Py.set k v' d.
Proof.
  induction d as [ | [k0 v0] d IH]; cbn [Py.set].
  - now rewrite String.eqb_refl.
  - destruct (String.eqb k k0) eqn:E; cbn [Py.set]; rewrite E; congruence.
Qed.

Lemma get_In k v d : Py.get k d = Some v -> In (k, v) d.
Proof.
  induction d as [ | [k0 v0] d IH]; cbn [Py.get]; [discriminate|].
  destruct (String.eqb k k0) eqn:E.
  - apply String.eqb_eq in E. intros [= ->]. subst. now left.
  - intros H. right. now apply IH.
Qed.

(** An entry of [d[k] = v] is the new one or was there before. *)
Lemma In_set k v k0 v0 d :
  In (k0, v0) (Py.set k v d) -> (k0 = k /\ v0 = v) \/ In (k0, v0) d.
Proof.
  induction d as [ | [k1 v1] d IH]; cbn [Py.set].
  - intros [[= <- <-] | []]. now left.
  - destruct (String.eqb k k1) eqn:E.
    + apply String.eqb_eq in E. subst k1.
      intros [[= <- <-] | H]; [now left | right; now right].
    + intros [H | H]; [right; now left|].
      destruct (IH H) as [? | ?]; [now left | right; now right].
Qed.

End DictFacts.

(** ** The rotator with statistics *)

Section SmartUserAgentRotatorFacts.

Import SmartUserAgentRotator.

(** [record_result] in one assignment. *)
Lemma record_result_rates (ua : string) (b : bool) (s : t) :
  agent_success_rates (record_result ua b s)
  = Py.set ua
      {| success := (success (entry_of ua s) + if b then 1 else 0)%nat;
         total := (total (entry_of ua s) + 1)%nat |}
      (agent_success_rates s).
Proof.
  unfold record_result, entry_of, Py.has_key.
  cbn [agent_success_rates].
  destruct (Py.get ua (agent_success_rates s)) as [d | ] eqn:E; cbn [negb].
  - rewrite E. destruct b.
    + now rewrite get_set_same, set_set.
    + now rewrite Nat.add_0_r.
  - rewrite get_set_same, set_set. destruct b.
    + now rewrite get_set_same, set_set.
    + reflexivity.
Qed.

Lemma init_counts_ok : counts_ok init.
Proof. intros ua d []. Qed.

Lemma record_result_counts_ok (ua : string) (b : bool) (s : t) :
  counts_ok s -> counts_ok (record_result ua b s).
Proof.
  intros Hs ua0 d0. rewrite record_result_rates. intros Hin.
  apply In_set in Hin. destruct Hin as [[_ ->] | Hin]; [|now apply (Hs ua0)].
  cbn [success total]. unfold entry_of.
  destruct (Py.get ua (agent_success_rates s)) as [d | ] eqn:E.
  - apply get_In, Hs in E. destruct b; lia.
  - cbn [success total]. destruct b; lia.
Qed.

Lemma record_all_counts_ok (results : list (string * bool)) (s : t) :
  counts_ok s -> counts_ok (record_all results s).
Proof.
  revert s. induction results as [ | [ua b] results IH]; intros s Hs.
  - exact Hs.
  - cbn [record_all fold_left fst snd]. apply IH.
    now apply record_result_counts_ok.
Qed.

End SmartUserAgentRotatorFacts.

Section RecordResultClaims.

Import SmartUserAgentRotator.

(** C10.  After any sequence of [record_result] calls on a new rotator,
    no tracked identity has more successes than attempts. *)
Theorem successes_le_attempts
  (results : list (string * bool)) (ua : string) (d : stats) :
  In (ua, d) (agent_success_rates (record_all results init)) ->
  (success d <= total d)%nat.
Proof.
  intros Hin.
  exact (proj1 (record_all_counts_ok results init init_counts_ok ua d Hin)).
Qed.

Lemma successes_le_attempts_witness :
  (success {| success := 2; total := 3 |}
   <= total {| success := 2; total := 3 |})%nat.
Proof.
  apply (successes_le_attempts
           [("agent-a", true); ("agent-b", false); ("agent-a", false);
            ("agent-a", true)]%string
           "agent-a"%string).
  vm_compute. left. reflexivity.
Defined.

End RecordResultClaims.

Section BestAgentFacts.

Import SmartUserAgentRotator.

Lemma of_nat_pos (n : nat) : (0 < n)%nat -> 0 < Py.of_nat n.
Proof.
  intros H. unfold Py.of_nat, Qlt. cbn. lia.
Qed.

Lemma rate_pos (d : stats) :
  (0 < success d)%nat -> (0 < total d)%nat -> 0 < rate d.
Proof.
  intros Hs Ht. unfold rate. apply Qlt_shift_div_l.
  - now apply of_nat_pos.
  - rewrite Qmult_0_l. now apply of_nat_pos.
Qed.

Lemma rate_zero (d : stats) : success d = 0%nat -> rate d <= 0.
Proof.
  intros H. unfold rate. rewrite H. unfold Qdiv.
  change (Py.of_nat 0) with 0. rewrite Qmult_0_l. apply Qle_refl.
Qed.

(** One iteration either keeps the pair or replaces it by a strictly
    better eligible agent. *)
Lemma best_step_cases (ba : option string) (br : Q) (x : string) (dx : stats) :
  (best_step (ba, br) (x, dx) = (ba, br)
   /\ ((5 <= total dx)%nat -> rate dx <= br))
  \/ (best_step (ba, br) (x, dx) = (Some x, rate dx)
      /\ (5 <= total dx)%nat /\ br < rate dx).
Proof.
  unfold best_step. cbn [snd].
  destruct (5 <=? total dx)%nat eqn:E5.
  - apply Nat.leb_le in E5. destruct (Py.ltb br (rate dx)) eqn:El.
    + right. apply ltb_lt in El. auto.
    + left. apply ltb_ge in El. auto.
  - left. split; [reflexivity|]. apply Nat.leb_gt in E5. lia.
Qed.

(** The loop of [get_best_agent] from any starting pair: either no agent
    beat the starting rate, or the result is the first of the eligible
    agents with the highest rate. *)
Lemma best_fold_inv (items : Py.dict stats) :
  forall (ba : option string) (br : Q),
    (fold_left best_step items (ba, br) = (ba, br)
     /\ forall b db, In (b, db) items -> (5 <= total db)%nat -> rate db <= br)
    \/ (exists a da,
          fold_left best_step items (ba, br) = (Some a, rate da)
          /\ br < rate da
          /\ first_with_highest_rate items a da).
Proof.
  induction items as [ | [x dx] items IH]; intros ba br.
  - left. split; [reflexivity | intros b db []].
  - cbn [fold_left].
    destruct (best_step_cases ba br x dx) as [[-> Hx] | (-> & H5 & Hlt)].
    + destruct (IH ba br) as [[-> Hall] | (a & da & -> & Hbr & Hfirst)].
      * left. split; [reflexivity|].
        intros b db [[= <- <-] | Hin]; [exact Hx | now apply (Hall b)].
      * right. exists a, da. split; [reflexivity|]. split; [exact Hbr|].
        destruct Hfirst as (l1 & l2 & -> & Hda & Hl1 & Hl2).
        exists ((x, dx) :: l1), l2. repeat split; auto.
        intros b db [[= <- <-] | Hin] Hb; [|now apply (Hl1 b)].
        eapply Qle_lt_trans; [now apply Hx | exact Hbr].
    + destruct (IH (Some x) (rate dx))
        as [[-> Hall] | (a & da & -> & Hbr & Hfirst)].
      * right. exists x, dx. split; [reflexivity|]. split; [exact Hlt|].
        exists [], items. repeat split; auto. intros b db [].
      * right. exists a, da. split; [reflexivity|].
        split; [eapply Qlt_trans; eassumption|].
        destruct Hfirst as (l1 & l2 & -> & Hda & Hl1 & Hl2).
        exists ((x, dx) :: l1), l2. repeat split; auto.
        intros b db [[= <- <-] | Hin] Hb; [exact Hbr | now apply (Hl1 b)].
Qed.

(** When no eligible agent has a success, the loop finds nothing and the
    method draws at random. *)
Lemma get_best_agent_fallback (r : nat) (s : t) :
  (forall b db, In (b, db) (agent_success_rates s) ->
                (5 <= total db)%nat -> success db = 0%nat) ->
  get_best_agent r s = get_random_agent r s.
Proof.
  intros H. unfold get_best_agent, best_loop.
  destruct (agent_success_rates s) as [ | item items] eqn:E; [reflexivity|].
  destruct (best_fold_inv (item :: items) None 0)
    as [[-> _] | (a & da & _ & Hpos & Hfirst)]; [reflexivity|].
  exfalso. destruct Hfirst as (l1 & l2 & Hl & Hda & _).
  assert (Hin : In (a, da) (item :: items))
    by (rewrite Hl; apply in_elt).
  apply (Qlt_not_le _ _ Hpos), rate_zero. now apply (H a).
Qed.

(** When some eligible agent has a success and no tracked agent is the
    empty string, the method returns the first eligible agent with the
    highest rate. *)
Lemma get_best_agent_first_best (r : nat) (s : t) :
  (exists b db, In (b, db) (agent_success_rates s)
                /\ (5 <= total db)%nat /\ (0 < success db)%nat) ->
  (forall b db, In (b, db) (agent_success_rates s) -> b <> EmptyString) ->
  exists a da,
    first_with_highest_rate (agent_success_rates s) a da
    /\ get_best_agent r s = Py.Ok a.
Proof.
  intros (b & db & Hin & Hb5 & Hbs) Hne.
  unfold get_best_agent, best_loop.
  destruct (agent_success_rates s) as [ | item items] eqn:E; [destruct Hin|].
  destruct (best_fold_inv (item :: items) None 0)
    as [[_ Hall] | (a & da & -> & Hpos & Hfirst)].
  - exfalso. apply (Qlt_not_le 0 (rate db)).
    + apply rate_pos; lia.
    + now apply (Hall b).
  - exists a, da. split; [exact Hfirst|].
    destruct Hfirst as (l1 & l2 & Hl & _).
    assert (Ha : In (a, da) (item :: items)) by (rewrite Hl; apply in_elt).
    apply Hne in Ha. destruct a; [contradiction | reflexivity].
Qed.

End BestAgentFacts.

Section BestAgentClaims.

Import SmartUserAgentRotator.

(** C4, as amended.  (1) When some identity with at least 5 attempts has
    at least one success, and the tracked identities are non-empty
    strings, [get_best_agent] returns the identity with the highest
    successes/attempts ratio among those with at least 5 attempts, the
    first of them in iteration order on a tie.  (2) When no identity with
    at least 5 attempts has a success, it returns what [get_random_agent]
    returns.  (3) With A at 5 attempts and 5 successes and B at 5 attempts
    and 1 success, in either order, it returns A. *)
Theorem get_best_agent_spec :
  (forall (r : nat) (s : t),
      (exists b db, In (b, db) (agent_success_rates s)
                    /\ (5 <= total db)%nat /\ (0 < success db)%nat) ->
      (forall b db, In (b, db) (agent_success_rates s) -> b <> EmptyString) ->
      exists a da,
        first_with_highest_rate (agent_success_rates s) a da
        /\ get_best_agent r s = Py.Ok a)
  /\ (forall (r : nat) (s : t),
         (forall b db, In (b, db) (agent_success_rates s) ->
                       (5 <= total db)%nat -> success db = 0%nat) ->
         get_best_agent r s = get_random_agent r s)
  /\ (forall (r : nat) (s : t) (A B : string),
         A <> EmptyString ->
         agent_success_rates s
         = [(A, {| success := 5; total := 5 |});
            (B, {| success := 1; total := 5 |})]
         \/ agent_success_rates s
            = [(B, {| success := 1; total := 5 |});
               (A, {| success := 5; total := 5 |})] ->
         get_best_agent r s = Py.Ok A).
Proof.
  split; [exact get_best_agent_first_best|].
  split; [exact get_best_agent_fallback|].
  intros r s A B HA [H | H]; unfold get_best_agent, best_loop; rewrite H;
    vm_compute; (destruct A; [contradiction | reflexivity]).
Qed.

Lemma get_best_agent_spec_witness :
  exists a da,
    first_with_highest_rate
      (agent_success_rates
         (record_all
            (repeat ("agent-a"%string, true) 5
               ++ ("agent-b"%string, true)
               :: repeat ("agent-b"%string, false) 4) init)) a da
    /\ get_best_agent 0
         (record_all
            (repeat ("agent-a"%string, true) 5
               ++ ("agent-b"%string, true)
               :: repeat ("agent-b"%string, false) 4) init)
       = Py.Ok a.
Proof.
  apply (proj1 get_best_agent_spec 0%nat).
  - exists "agent-a"%string, {| success := 5; total := 5 |}.
    vm_compute. split; [left; reflexivity | split; lia].
  - vm_compute. intros b db [[= <- _] | [[= <- _] | []]]; discriminate.
Defined.

(** C4 as stated fails.  After five failed attempts with the first
    built-in agent it is the only identity with 5 attempts, yet
    [get_best_agent] does not return it: its rate 0 does not exceed the
    initial [best_rate = 0], and the method draws at random (here, with
    draw 1, the second built-in agent). *)
Lemma get_best_agent_ignores_zero_rate :
  let A := nth 0 UserAgentRotator._get_user_agent_list EmptyString in
  let B := nth 1 UserAgentRotator._get_user_agent_list EmptyString in
  let s := record_all (repeat (A, false) 5) init in
  agent_success_rates s = [(A, {| success := 0; total := 5 |})]
  /\ get_best_agent 1 s = Py.Ok B
  /\ B <> A.
Proof.
  cbv zeta. repeat split. vm_compute. discriminate.
Qed.

(** The truth test [if best_agent:] also sends a best agent that is the
    empty string to the random draw. *)
Lemma get_best_agent_empty_string :
  let s := record_all (repeat (EmptyString, true) 5) init in
  get_best_agent 0 s = get_random_agent 0 s.
Proof. reflexivity. Qed.

End BestAgentClaims.

Section GetStatsClaims.

Import SmartUserAgentRotator.

(** An entry of the report survives the rest of the loop when no later
    agent is filed under its key. *)
Lemma stats_fold_keeps (l : Py.dict stats) :
  forall (acc : Py.dict report) (key : string) (rep : report),
    Py.get key acc = Some rep ->
    (forall b db, In (b, db) l -> (0 < total db)%nat -> stats_key b <> key) ->
    Py.get key (fold_left stats_step l acc) = Some rep.
Proof.
  induction l as [ | [b db] l IH]; intros acc key rep Hget Hl.
  - exact Hget.
  - cbn [fold_left]. apply IH.
    + unfold stats_step. destruct (0 <? total db)%nat eqn:E; [|exact Hget].
      rewrite get_set_other; [exact Hget|].
      intros Heq. apply (Hl b db); [now left | now apply Nat.ltb_lt | auto].
    + intros b' db' Hin. apply Hl. now right.
Qed.

(** C8, as amended.  [get_stats] files each identity that has at least
    one attempt under the key made of its first 50 characters followed by
    three dots.  That key is mapped to the success rate, number of uses
    and number of successes of the identity, unless an identity later in
    the iteration is filed under the same key.  The rotator is returned
    unchanged. *)
Theorem get_stats_snapshot
  (s : t) (l1 l2 : Py.dict stats) (agent : string) (data : stats) :
  agent_success_rates s = l1 ++ (agent, data) :: l2 ->
  (0 < total data)%nat ->
  (forall b db, In (b, db) l2 -> (0 < total db)%nat ->
                stats_key b <> stats_key agent) ->
  Py.get (stats_key agent) (fst (get_stats s))
  = Some {| success_rate := rate data;
            total_uses := total data;
            successes := success data |}
  /\ snd (get_stats s) = s.
Proof.
  intros Hl Ht Hl2. split; [|reflexivity].
  unfold get_stats. cbn [fst]. rewrite Hl, fold_left_app. cbn [fold_left].
  apply stats_fold_keeps; [|exact Hl2].
  unfold stats_step. apply Nat.ltb_lt in Ht. rewrite Ht.
  apply get_set_same.
Qed.

Lemma get_stats_snapshot_witness :
  let A := nth 0 UserAgentRotator._get_user_agent_list EmptyString in
  let B := nth 5 UserAgentRotator._get_user_agent_list EmptyString in
  let s := record_all [(A, true); (B, false); (A, true)] init in
  Py.get (stats_key A) (fst (get_stats s))
  = Some {| success_rate := rate {| success := 2; total := 2 |};
            total_uses := 2;
            successes := 2 |}
  /\ snd (get_stats s) = s.
Proof.
  cbv zeta.
  apply (get_stats_snapshot _ []
           [(nth 5 UserAgentRotator._get_user_agent_list EmptyString,
             {| success := 0; total := 1 |})]
           _ {| success := 2; total := 2 |}).
  - reflexivity.
  - cbn. lia.
  - intros b db [[= <- <-] | []] _. vm_compute. discriminate.
Defined.

(** C8 as stated fails.  The keys of the report are not the identities,
    and identities that agree on their first 50 characters share one key.
    After one success with the first built-in agent and one failure with
    the second, both agents are tracked, the first one with a success,
    but the report has a single entry, it is not keyed by either agent,
    and it carries the second agent's numbers. *)
Lemma get_stats_merges_agents :
  let A := nth 0 UserAgentRotator._get_user_agent_list EmptyString in
  let B := nth 1 UserAgentRotator._get_user_agent_list EmptyString in
  let s := record_all [(A, true); (B, false)] init in
  agent_success_rates s
  = [(A, {| success := 1; total := 1 |});
     (B, {| success := 0; total := 1 |})]
  /\ Py.get A (fst (get_stats s)) = None
  /\ fst (get_stats s)
     = [(stats_key A,
         {| success_rate := rate {| success := 0; total := 1 |};
            total_uses := 1;
            successes := 0 |})].
Proof.
  cbv zeta. repeat split.
Qed.

End GetStatsClaims.

(** * Further properties of the rate limiter *)

Section RateLimiterSessions.

Import RateLimiter.

Lemma same_pacing_refl (s : t) : same_pacing s s.
Proof. unfold same_pacing. auto. Qed.

(** A feedback call reads and writes the pacing attributes only. *)
Lemma step_same_pacing (s1 s2 : t) (c : call) :
  same_pacing s1 s2 -> same_pacing (step s1 c) (step s2 c).
Proof.
  unfold same_pacing. intros (Hb & Hr & Hs & Hf & Hd).
  destruct c as [ | k | ]; cbn [step].
  - unfold on_success.
    cbn [set_counters consecutive_successes base_delay].
    rewrite Hs, Hb. destruct (5 <=? _)%nat; cbn; auto.
  - unfold on_failure.
    cbn [set_counters consecutive_failures base_delay].
    rewrite Hf, Hb. destruct (_ || _); [cbn; auto|].
    destruct (5 <=? _)%nat; cbn; auto.
  - unfold on_blocked. cbn. rewrite Hf. auto.
Qed.

Lemma wait_same_pacing (a u e : Q) (s : t) : same_pacing (snd (wait a u e s)) s.
Proof. unfold same_pacing. cbn. auto. Qed.

Lemma same_pacing_trans (s1 s2 s3 : t) :
  same_pacing s1 s2 -> same_pacing s2 s3 -> same_pacing s1 s3.
Proof.
  unfold same_pacing. intros (? & ? & ? & ? & ?) (? & ? & ? & ? & ?).
  repeat split; congruence.
Qed.

Lemma session_same_pacing (es : list event) :
  forall s1 s2, same_pacing s1 s2 ->
                same_pacing (session es s1) (run (feedback_of es) s2).
Proof.
  induction es as [ | e es IH]; intros s1 s2 H; [exact H|].
  destruct e as [c | a u e]; cbn [session fold_left handle feedback_of flat_map app].
  - change (same_pacing (session es (step s1 c))
                        (run (feedback_of es) (step s2 c))).
    apply IH. now apply step_same_pacing.
  - change (same_pacing (session es (snd (wait a u e s1)))
                        (run (feedback_of es) s2)).
    apply IH. eapply same_pacing_trans; [apply wait_same_pacing | exact H].
Qed.

Lemma step_config (s : t) (c : call) :
  base_delay (step s c) = base_delay s /\ randomize (step s c) = randomize s.
Proof.
  split; [apply step_base_delay|].
  destruct c as [ | k | ]; cbn [step].
  - unfold on_success. now destruct (_ <=? _).
  - unfold on_failure. destruct (_ || _); [reflexivity|]. now destruct (_ <=? _).
  - reflexivity.
Qed.

Lemma session_config (es : list event) (s : t) :
  base_delay (session es s) = base_delay s
  /\ randomize (session es s) = randomize s.
Proof.
  revert s. induction es as [ | e es IH]; intros s; [now split|].
  cbn [session fold_left]. fold (session es (handle s e)).
  destruct (IH (handle s e)) as [-> ->].
  destruct e as [c | a u e]; cbn [handle]; [apply step_config | now split].
Qed.

Lemma successes_S (n : nat) (s : t) :
  successes (S n) s = on_success (successes n s).
Proof. reflexivity. Qed.

Lemma on_success_counters (s : t) :
  consecutive_successes (on_success s) = S (consecutive_successes s)
  /\ consecutive_failures (on_success s) = 0%nat
  /\ base_delay (on_success s) = base_delay s.
Proof.
  unfold on_success. cbn [set_counters consecutive_successes base_delay].
  destruct (5 <=? _)%nat; cbn; repeat split; lia.
Qed.

Lemma successes_counters (n : nat) (s : t) :
  consecutive_successes (successes n s) = (consecutive_successes s + n)%nat
  /\ base_delay (successes n s) = base_delay s.
Proof.
  induction n as [ | n [IHs IHb]].
  - cbn. split; [lia | reflexivity].
  - rewrite successes_S.
    destruct (on_success_counters (successes n s)) as (Hs & _ & Hb).
    rewrite Hs, Hb, IHs, IHb. split; [lia | reflexivity].
Qed.

(** The delay [on_success] leaves, from the counter it finds. *)
Lemma on_success_delay (s : t) :
  current_delay (on_success s)
  = if (5 <=? S (consecutive_successes s))%nat
    then Py.max (base_delay s * 0.8) 0.5
    else current_delay s.
Proof.
  unfold on_success. cbn [set_counters consecutive_successes base_delay].
  replace (consecutive_successes s + 1)%nat with (S (consecutive_successes s))
    by lia.
  now destruct (5 <=? S (consecutive_successes s))%nat.
Qed.

End RateLimiterSessions.

Section RateLimiterExtras.

Import RateLimiter.

(** With jitter on, a [wait] that sleeps does so for at least 0.1 s, for at
    least 75% of the delay still needed, and for at most 125% of it (or
    0.1 s, when that is more).  The delay still needed is [current_delay]
    minus the time elapsed since the previous request. *)
Theorem wait_jitter_bounds (current_time u end_time last d : Q) (s : t) :
  last_request_time s = Some last ->
  randomize s = true ->
  0 <= u -> u <= 1 ->
  fst (wait current_time u end_time s) = Some d ->
  let delay_needed := current_delay s - (current_time - last) in
  0 < delay_needed
  /\ 0.1 <= d
  /\ 0.75 * delay_needed <= d
  /\ d <= Py.max 0.1 (1.25 * delay_needed).
Proof.
  intros Hlast Hrand Hu0 Hu1. unfold wait. cbn [fst]. rewrite Hlast, Hrand.
  set (needed := current_delay s - (current_time - last)).
  destruct (Py.ltb 0 needed) eqn:E; [|discriminate].
  apply ltb_lt in E. intros [= <-]. cbv zeta. unfold Py.uniform.
  assert (Hp0 : 0 <= needed * u) by (apply Qmult_le_0_compat; lra).
  assert (Hp1 : needed * u <= needed).
  { rewrite <- (Qmult_1_r needed) at 2.
    rewrite !(Qmult_comm needed). apply Qmult_le_compat_r; lra. }
  set (p := needed * u) in *.
  assert (Ha : needed + (- (needed * 0.25)
                         + (needed * 0.25 - - (needed * 0.25)) * u)
               == 0.75 * needed + 0.5 * p) by (unfold p; ring).
  destruct (max_cases 0.1 (needed + (- (needed * 0.25)
                     + (needed * 0.25 - - (needed * 0.25)) * u)))
    as [[H ->] | [H ->]];
    destruct (max_cases 0.1 (1.25 * needed)) as [[H' ->] | [H' ->]];
    rewrite ?Ha in *; repeat split; lra.
Qed.

Lemma wait_jitter_bounds_witness :
  let s := snd (wait 100 0.5 100 (init 2.0 true)) in
  let delay_needed := current_delay s - (100.5 - 100) in
  0 < delay_needed
  /\ 0.1 <= 1.3125000000000000
  /\ 0.75 * delay_needed <= 1.3125000000000000
  /\ 1.3125000000000000 <= Py.max 0.1 (1.25 * delay_needed).
Proof.
  cbv zeta.
  apply (wait_jitter_bounds 100.5 0.25 103 100 1.3125000000000000
           (snd (wait 100 0.5 100 (init 2.0 true)))).
  - reflexivity.
  - reflexivity.
  - unfold Qle. simpl. lia.
  - unfold Qle. simpl. lia.
  - vm_compute. reflexivity.
Defined.

(** [wait] goes on without sleeping exactly on the first request of a
    limiter (or the first after a [reset]) and when at least
    [current_delay] has elapsed since the previous request. *)
Theorem wait_skips_sleep_iff (current_time u end_time : Q) (s : t) :
  fst (wait current_time u end_time s) = None
  <-> (last_request_time s = None
       \/ exists last, last_request_time s = Some last
                       /\ current_delay s <= current_time - last).
Proof.
  unfold wait. cbn [fst]. destruct (last_request_time s) as [last | ].
  - destruct (Py.ltb 0 (current_delay s - (current_time - last))) eqn:E.
    + apply ltb_lt in E. split.
      * destruct (randomize s); discriminate.
      * intros [H | (l & [= <-] & H)]; [discriminate | lra].
    + apply ltb_ge in E. split; [|reflexivity].
      intros _. right. exists last. split; [reflexivity | lra].
  - split; auto.
Qed.

(** Waiting never adapts the pacing: a session leaves the delay and the
    two streak counters where its feedback calls alone would. *)
Theorem session_pacing_ignores_waits (es : list event) (s : t) :
  current_delay (session es s) = current_delay (run (feedback_of es) s)
  /\ consecutive_successes (session es s)
     = consecutive_successes (run (feedback_of es) s)
  /\ consecutive_failures (session es s)
     = consecutive_failures (run (feedback_of es) s).
Proof.
  destruct (session_same_pacing es s s (same_pacing_refl s))
    as (_ & _ & Hs & Hf & Hd).
  auto.
Qed.

(** [reset] after any session of waits and feedback calls gives back the
    limiter as it was constructed. *)
Theorem reset_forgets_session (base : Q) (rand : bool) (es : list event) :
  reset (session es (init base rand)) = init base rand.
Proof.
  unfold reset. destruct (session_config es (init base rand)) as [-> ->].
  reflexivity.
Qed.

(** [set_delay] with a value of at most 60 puts any limiter, whatever its
    state, where the delay stays between 0.1 and 60 seconds under every
    later sequence of feedback calls; values below 0.1 are raised to it. *)
Theorem set_delay_restores_range (delay : Q) (s : t) (cs : list call) :
  delay <= 60 ->
  0.1 <= current_delay (run cs (set_delay delay s))
  /\ current_delay (run cs (set_delay delay s)) <= 60.
Proof.
  intros H.
  assert (Hin : in_range (set_delay delay s)).
  { unfold in_range, set_delay. cbn [base_delay current_delay].
    destruct (max_cases 0.1 delay) as [[Hm ->] | [Hm ->]]; repeat split; lra. }
  exact (proj2 (run_in_range cs _ Hin)).
Qed.

Lemma set_delay_restores_range_witness :
  0.1 <= current_delay
           (run [OnSuccess; OnBlocked; OnFailure "general"]
                (set_delay 0.01 (init 500 false)))
  /\ current_delay
       (run [OnSuccess; OnBlocked; OnFailure "general"]
            (set_delay 0.01 (init 500 false))) <= 60.
Proof.
  apply (set_delay_restores_range 0.01 (init 500 false)
           [OnSuccess; OnBlocked; OnFailure "general"]).
  unfold Qle. simpl. lia.
Defined.

(** After [n >= 1] successes in a row the delay is [max(base_delay * 0.8,
    0.5)] if the success streak has reached 5, and otherwise what it was
    before them: the relaxation is taken from [base_delay], once, and does
    not compound. *)
Theorem successes_relax_delay (n : nat) (s : t) :
  (1 <= n)%nat ->
  current_delay (successes n s)
  = if (5 <=? consecutive_successes s + n)%nat
    then Py.max (base_delay s * 0.8) 0.5
    else current_delay s.
Proof.
  induction n as [ | n IH]; intros Hn; [lia|].
  rewrite successes_S, on_success_delay.
  destruct (successes_counters n s) as [-> ->].
  replace (S (consecutive_successes s + n))
    with (consecutive_successes s + S n)%nat by lia.
  destruct (5 <=? consecutive_successes s + S n)%nat eqn:E; [reflexivity|].
  destruct n as [ | n]; [reflexivity|].
  rewrite IH by lia. apply Nat.leb_gt in E.
  replace (5 <=? consecutive_successes s + S n)%nat with false; [reflexivity|].
  symmetry. apply Nat.leb_gt. lia.
Qed.

Lemma successes_relax_delay_witness :
  current_delay (successes 5 (on_blocked (init 2.0 true)))
  = if (5 <=? consecutive_successes (on_blocked (init 2.0 true)) + 5)%nat
    then Py.max (base_delay (on_blocked (init 2.0 true)) * 0.8) 0.5
    else current_delay (on_blocked (init 2.0 true)).
Proof.
  apply (successes_relax_delay 5 (on_blocked (init 2.0 true))). lia.
Defined.

(** For a limiter whose base delay is at most 0.5 s the fifth success in a
    row does not reduce the delay: it sets it to 0.5 s, which is the base
    delay or more. *)
Theorem small_base_delay_is_raised (s : t) :
  base_delay s <= 0.5 ->
  current_delay (successes 5 s) = 0.5
  /\ base_delay s <= current_delay (successes 5 s).
Proof.
  intros Hb. rewrite (successes_S 4 s), on_success_delay.
  destruct (successes_counters 4 s) as [-> ->].
  replace (5 <=? S (consecutive_successes s + 4))%nat with true
    by (symmetry; apply Nat.leb_le; lia).
  destruct (max_cases (base_delay s * 0.8) 0.5) as [[H ->] | [H ->]].
  - split; [reflexivity | exact Hb].
  - lra.
Qed.

Lemma small_base_delay_is_raised_witness :
  current_delay (successes 5 (init 0.2 true)) = 0.5
  /\ base_delay (init 0.2 true) <= current_delay (successes 5 (init 0.2 true)).
Proof.
  apply (small_base_delay_is_raised (init 0.2 true)).
  unfold Qle. simpl. lia.
Defined.

(** A failure reported right after a block lowers the delay: [on_blocked]
    sets it to 60 s, and the next [on_failure], of either kind, sets it to
    [min(base_delay * 2, 30)], which is at most 30 s. *)
Theorem failure_after_block_lowers_delay (k : string) (s : t) :
  current_delay (on_blocked s) = 60.0
  /\ current_delay (on_failure k (on_blocked s)) = Py.min (base_delay s * 2) 30.0
  /\ current_delay (on_failure k (on_blocked s)) <= 30.
Proof.
  split; [reflexivity|].
  assert (E : current_delay (on_failure k (on_blocked s))
              = Py.min (base_delay s * 2) 30.0).
  { rewrite on_failure_third; [reflexivity|].
    unfold on_blocked. cbn. lia. }
  split; [exact E|]. rewrite E.
  destruct (min_cases (base_delay s * 2) 30.0) as [[H ->] | [H ->]]; lra.
Qed.

End RateLimiterExtras.

(** * Further properties of the latency-aware limiter *)

Section AdaptiveRateLimiterExtras.

Import AdaptiveRateLimiter.

Lemma tl_skipn {A : Type} (l : list A) : tl l = skipn 1 l.
Proof. now destruct l. Qed.

Lemma last_n_length {A : Type} (n : nat) (l : list A) :
  (length (Py.last_n n l) <= n)%nat.
Proof. unfold Py.last_n. rewrite length_skipn. lia. Qed.

(** Keeping the last [n] entries may be done early. *)
Lemma last_n_app {A : Type} (n : nat) (l r : list A) :
  Py.last_n n (Py.last_n n l ++ r) = Py.last_n n (l ++ r).
Proof.
  unfold Py.last_n. rewrite !length_app, length_skipn.
  destruct (Nat.le_gt_cases (length l) n) as [H | H].
  - replace (length l - n)%nat with 0%nat by lia. cbn [skipn].
    now rewrite Nat.sub_0_r.
  - replace (length l - (length l - n) + length r - n)%nat
      with (length r) by lia.
    replace (length l + length r - n)%nat
      with (length r + (length l - n))%nat by lia.
    rewrite <- skipn_skipn. f_equal.
    rewrite skipn_app.
    replace (length l - n - length l)%nat with 0%nat by lia.
    reflexivity.
Qed.

(** [record_time] on a history within its bound. *)
Lemma record_time_history (rt : Q) (s : t) :
  max_response_time_history s = 10%nat ->
  (length (response_times s) <= 10)%nat ->
  response_times (record_time rt s) = Py.last_n 10 (response_times s ++ [rt])
  /\ max_response_time_history (record_time rt s) = 10%nat.
Proof.
  intros Hmax Hlen. unfold record_time.
  cbn [set_response_times response_times max_response_time_history].
  rewrite Hmax. unfold Py.last_n.
  destruct (10 <? length (response_times s ++ [rt]))%nat eqn:E;
    cbn [response_times max_response_time_history set_response_times];
    (split; [|assumption]).
  - apply Nat.ltb_lt in E. rewrite length_app in *. cbn [length] in *.
    replace (length (response_times s) + 1 - 10)%nat with 1%nat by lia.
    apply tl_skipn.
  - apply Nat.ltb_ge in E.
    replace (length (response_times s ++ [rt]) - 10)%nat with 0%nat by lia.
    reflexivity.
Qed.

Lemma on_request_complete_max (rt : Q) (ok : bool) (s : t) :
  max_response_time_history (on_request_complete rt ok s)
  = max_response_time_history (record_time rt s).
Proof.
  unfold on_request_complete. destruct ok.
  - destruct (5 <=? _)%nat; [|reflexivity]. now destruct (_ && _).
  - destruct (3 <=? _)%nat; [|reflexivity]. now destruct (Py.ltb _ _).
Qed.

Lemma run_history (reqs : list (Q * bool)) :
  forall s,
    max_response_time_history s = 10%nat ->
    (length (response_times s) <= 10)%nat ->
    response_times (run reqs s)
    = Py.last_n 10 (response_times s ++ map fst reqs).
Proof.
  induction reqs as [ | [rt ok] reqs IH]; intros s Hmax Hlen.
  - cbn [run fold_left map]. rewrite app_nil_r. unfold Py.last_n.
    replace (length (response_times s) - 10)%nat with 0%nat by lia.
    reflexivity.
  - cbn [run fold_left map fst snd].
    change (response_times (run reqs (on_request_complete rt ok s))
            = Py.last_n 10 (response_times s ++ rt :: map fst reqs)).
    destruct (record_time_history rt s Hmax Hlen) as [Hh Hm].
    rewrite IH.
    + rewrite on_request_complete_history, Hh, last_n_app, <- app_assoc.
      reflexivity.
    + now rewrite on_request_complete_max.
    + rewrite on_request_complete_history, Hh. apply last_n_length.
Qed.

(** The history holds the latencies of the last 10 completed requests, in
    the order they were reported, successful or not. *)
Theorem history_is_last_10 (base : Q) (reqs : list (Q * bool)) :
  response_times (run reqs (init base)) = Py.last_n 10 (map fst reqs)
  /\ (length (response_times (run reqs (init base))) <= 10)%nat.
Proof.
  assert (E : response_times (run reqs (init base))
              = Py.last_n 10 (map fst reqs)).
  { rewrite run_history; [reflexivity | reflexivity | cbn; lia]. }
  split; [exact E|]. rewrite E. apply last_n_length.
Qed.

(** What a call makes of the inherited limiter: the streak rule alone, or
    the streak rule followed by the latency rule. *)
Lemma on_request_complete_limiter (rt : Q) (ok : bool) (s : t) :
  let l := if ok then RateLimiter.on_success (limiter s)
           else RateLimiter.on_failure "general" (limiter s) in
  limiter (on_request_complete rt ok s) = l
  \/ (ok = true
      /\ limiter (on_request_complete rt ok s)
         = RateLimiter.set_current_delay
             (Py.max (RateLimiter.current_delay l * 0.9) 0.5) l)
  \/ (ok = false
      /\ limiter (on_request_complete rt ok s)
         = RateLimiter.set_current_delay
             (Py.min (RateLimiter.current_delay l * 1.5) 30.0) l).
Proof.
  assert (El : limiter (record_time rt s) = limiter s).
  { unfold record_time. now destruct (_ <? _)%nat. }
  cbv zeta. unfold on_request_complete. destruct ok.
  - destruct (5 <=? _)%nat; [destruct (_ && _)|];
      cbn [limiter set_limiter]; unfold current_delay;
      cbn [limiter set_limiter]; rewrite El; auto.
  - destruct (3 <=? _)%nat; [destruct (Py.ltb _ _)|];
      cbn [limiter set_limiter]; unfold current_delay;
      cbn [limiter set_limiter]; rewrite El; auto.
Qed.

Lemma on_request_complete_in_range (rt : Q) (ok : bool) (s : t) :
  RateLimiter.in_range (limiter s) ->
  RateLimiter.in_range (limiter (on_request_complete rt ok s)).
Proof.
  intros H.
  assert (Hl : RateLimiter.in_range
                 (if ok then RateLimiter.on_success (limiter s)
                  else RateLimiter.on_failure "general" (limiter s))).
  { destruct ok.
    - exact (step_in_range (limiter s) RateLimiter.OnSuccess H).
    - exact (step_in_range (limiter s) (RateLimiter.OnFailure "general") H). }
  destruct (on_request_complete_limiter rt ok s) as [-> | [[_ ->] | [_ ->]]];
    [exact Hl | | ];
    set (l := if ok then _ else _) in *;
    destruct Hl as [[Hb1 Hb2] [Hc1 Hc2]];
    unfold RateLimiter.in_range;
    cbn [RateLimiter.set_current_delay RateLimiter.base_delay
           RateLimiter.current_delay].
  - destruct (max_cases (RateLimiter.current_delay l * 0.9) 0.5)
      as [[Hm ->] | [Hm ->]]; repeat split; lra.
  - destruct (min_cases (RateLimiter.current_delay l * 1.5) 30.0)
      as [[Hm ->] | [Hm ->]]; repeat split; lra.
Qed.

(** The latency rules keep the delay in range too: for a base delay
    between 0.1 and 60 seconds, [current_delay] is between 0.1 and 60
    seconds after every run of [on_request_complete] calls. *)
Theorem adaptive_delay_stays_in_range (base : Q) (reqs : list (Q * bool)) :
  0.1 <= base -> base <= 60 ->
  0.1 <= current_delay (run reqs (init base))
  /\ current_delay (run reqs (init base)) <= 60.
Proof.
  intros Hlo Hhi.
  assert (H : forall s, RateLimiter.in_range (limiter s) ->
                        RateLimiter.in_range (limiter (run reqs s))).
  { induction reqs as [ | [rt ok] reqs IH]; intros s Hs; [exact Hs|].
    cbn [run fold_left fst snd].
    change (RateLimiter.in_range
              (limiter (run reqs (on_request_complete rt ok s)))).
    apply IH. now apply on_request_complete_in_range. }
  apply (H (init base)).
  unfold RateLimiter.in_range. cbn. tauto.
Qed.

Lemma adaptive_delay_stays_in_range_witness :
  0.1 <= current_delay
           (run [(0.2, true); (7.5, false); (9.0, false); (6.0, false)]
                (init 2.0))
  /\ current_delay
       (run [(0.2, true); (7.5, false); (9.0, false); (6.0, false)]
            (init 2.0)) <= 60.
Proof.
  apply (adaptive_delay_stays_in_range 2.0
           [(0.2, true); (7.5, false); (9.0, false); (6.0, false)]).
  - unfold Qle. simpl. lia.
  - unfold Qle. simpl. lia.
Defined.

(** A failed request that is at least the third failure in a row, with at
    least three latencies on record of which the last three average more
    than 5 s, gets both escalations: the doubling of the streak rule and,
    on top of it, the 50% increase of the latency rule, capped at 30 s. *)
Theorem slow_failure_streak_delay (rt : Q) (s : t) :
  (2 <= RateLimiter.consecutive_failures (limiter s))%nat ->
  (3 <= length (response_times (on_request_complete rt false s)))%nat ->
  5.0 < recent_mean (on_request_complete rt false s) ->
  current_delay (on_request_complete rt false s)
  = Py.min (Py.min (RateLimiter.base_delay (limiter s) * 2) 30.0 * 1.5) 30.0.
Proof.
  intros Hf Hlen Hmean.
  unfold recent_mean in Hmean.
  rewrite on_request_complete_history in Hlen, Hmean.
  assert (El : limiter (record_time rt s) = limiter s).
  { unfold record_time. now destruct (_ <? _)%nat. }
  unfold on_request_complete.
  cbn [response_times set_limiter]. unfold recent_mean.
  cbn [response_times set_limiter].
  apply Nat.leb_le in Hlen. apply ltb_lt in Hmean. rewrite Hlen, Hmean.
  unfold current_delay. cbn [limiter set_limiter RateLimiter.current_delay
                               RateLimiter.set_current_delay].
  rewrite El, (on_failure_third "general" (limiter s) Hf). reflexivity.
Qed.

Lemma slow_failure_streak_delay_witness :
  current_delay
    (on_request_complete 9.0 false
       (run [(7.5, false); (6.0, false)] (init 2.0)))
  = Py.min
      (Py.min
         (RateLimiter.base_delay
            (limiter (run [(7.5, false); (6.0, false)] (init 2.0))) * 2)
         30.0 * 1.5) 30.0.
Proof.
  apply (slow_failure_streak_delay 9.0
           (run [(7.5, false); (6.0, false)] (init 2.0))).
  - vm_compute. lia.
  - vm_compute. lia.
  - vm_compute. reflexivity.
Defined.

End AdaptiveRateLimiterExtras.

(** * Further properties of the rotator *)

Section SubstringFacts.

Local Open Scope string_scope.

Lemma prefix_spec (a s : string) :
  String.prefix a s = true <-> exists post, s = a ++ post.
Proof.
  revert s. induction a as [ | c a IH]; intros s.
  - destruct s; cbn; split; eauto.
  - destruct s as [ | c' s]; cbn [String.prefix String.append].
    + split; [discriminate | intros [post H]; discriminate H].
    + destruct (Ascii.ascii_dec c c') as [<- | Hne].
      * rewrite IH. split; intros [post H]; exists post; congruence.
      * split; [discriminate | intros [post H]; congruence].
Qed.

(** [Py.contains] is the substring test. *)
Lemma contains_spec (sub s : string) :
  Py.contains sub s = true <-> exists pre post, s = pre ++ sub ++ post.
Proof.
  induction s as [ | c s IH].
  - cbn [Py.contains]. destruct (String.prefix sub "") eqn:E.
    + split; [intros _ | reflexivity].
      apply prefix_spec in E. destruct E as [post E]. now exists "", post.
    + split; [discriminate|]. intros (pre & post & H).
      destruct pre; [|discriminate H]. cbn [String.append] in H.
      assert (Hp : String.prefix sub "" = true)
        by (apply prefix_spec; eauto).
      congruence.
  - cbn [Py.contains]. destruct (String.prefix sub (String c s)) eqn:E.
    + split; [intros _ | reflexivity].
      apply prefix_spec in E. destruct E as [post E]. now exists "", post.
    + rewrite IH. split.
      * intros (pre & post & ->). now exists (String c pre), post.
      * intros (pre & post & H). destruct pre as [ | c' pre].
        -- cbn [String.append] in H.
           assert (Hp : String.prefix sub (String c s) = true)
             by (apply prefix_spec; eauto).
           congruence.
        -- cbn [String.append] in H. injection H as _ ->. eauto.
Qed.

End SubstringFacts.

Section UserAgentRotatorExtras.

Import UserAgentRotator.

Lemma mem_In (x : string) (xs : list string) : Py.mem x xs = true <-> In x xs.
Proof.
  unfold Py.mem. rewrite existsb_exists. split.
  - intros (y & Hy & E). apply String.eqb_eq in E. now subst.
  - intros H. exists x. split; [exact H | apply String.eqb_refl].
Qed.

(** The desktop filter rejects exactly the agents in which one of the
    three markers occurs, anywhere and with this capitalisation. *)
Theorem is_desktop_spec (ua : string) :
  is_desktop ua = false
  <-> exists marker pre post,
        In marker ["Mobile"; "iPhone"; "Android"]%string
        /\ ua = (pre ++ marker ++ post)%string.
Proof.
  unfold is_desktop. rewrite !andb_false_iff, !negb_false_iff, !contains_spec.
  split.
  - intros [[(pre & post & H) | (pre & post & H)] | (pre & post & H)];
      eexists _, pre, post; (split; [|exact H]); cbn; auto.
  - intros (marker & pre & post & Hin & H).
    destruct Hin as [<- | [<- | [<- | []]]]; eauto.
Qed.

(** [add_custom_agent] puts the agent in the pool, changes the size of the
    pool by one for a new agent and not at all for a known one, and has no
    further effect when repeated. *)
Theorem add_custom_agent_idempotent (ua : string) (s : t) :
  add_custom_agent ua (add_custom_agent ua s) = add_custom_agent ua s
  /\ In ua (user_agents (add_custom_agent ua s))
  /\ get_agent_count (add_custom_agent ua s)
     = if Py.mem ua (user_agents s)
       then get_agent_count s
       else S (get_agent_count s).
Proof.
  assert (Hin : In ua (user_agents (add_custom_agent ua s))).
  { unfold add_custom_agent. destruct (Py.mem ua (user_agents s)) eqn:E.
    - now apply mem_In.
    - cbn. apply in_or_app. right. now left. }
  split; [|split; [exact Hin|]].
  - apply mem_In in Hin. unfold add_custom_agent at 1. now rewrite Hin.
  - unfold add_custom_agent, get_agent_count.
    destruct (Py.mem ua (user_agents s)); cbn [negb user_agents];
      [reflexivity|].
    rewrite length_app. cbn. lia.
Qed.

(** The pool of a rotator that is extended through [add_custom_agent] only
    never holds the same string twice. *)
Theorem pool_has_no_duplicates (extras : list string) :
  NoDup (user_agents (add_all extras init)).
Proof.
  unfold add_all.
  assert (H : forall s, NoDup (user_agents s) ->
                        NoDup (user_agents
                                 (fold_left (fun s ua => add_custom_agent ua s)
                                    extras s))).
  { induction extras as [ | ua extras IH]; intros s Hs; [exact Hs|].
    cbn [fold_left]. apply IH. now apply add_custom_agent_NoDup. }
  apply H. exact builtin_NoDup.
Qed.

(** The cursor stays inside the pool. *)
Lemma get_next_agent_valid (s : t) :
  (current_index s < length (user_agents s))%nat ->
  exists ua s',
    get_next_agent s = Py.Ok (ua, s')
    /\ In ua (user_agents s)
    /\ user_agents s' = user_agents s
    /\ (current_index s' < length (user_agents s'))%nat.
Proof.
  intros H. unfold get_next_agent, Py.index.
  destruct (nth_error (user_agents s) (current_index s)) as [ua | ] eqn:E;
    [|apply nth_error_None in E; lia].
  eexists ua, _. cbn [Py.bind]. split; [reflexivity|].
  split; [eapply nth_error_In; eassumption|].
  split; [reflexivity|]. cbn [user_agents current_index].
  apply Nat.mod_upper_bound. lia.
Qed.

Lemma add_custom_agent_valid (ua : string) (s : t) :
  (current_index s < length (user_agents s))%nat ->
  (current_index (add_custom_agent ua s)
   < length (user_agents (add_custom_agent ua s)))%nat
  /\ incl (user_agents s) (user_agents (add_custom_agent ua s)).
Proof.
  intros H. unfold add_custom_agent. destruct (negb _); cbn.
  - rewrite length_app. split; [lia | now apply incl_appl, incl_refl].
  - split; [exact H | apply incl_refl].
Qed.

Lemma exec_valid (ops : list op) :
  forall s,
    (current_index s < length (user_agents s))%nat ->
    exists out s',
      exec ops s = Py.Ok (out, s')
      /\ incl (user_agents s) (user_agents s')
      /\ Forall (fun ua => In ua (user_agents s')) out.
Proof.
  induction ops as [ | [ | ua] ops IH]; intros s Hs.
  - exists [], s. split; [reflexivity|]. split; [apply incl_refl | constructor].
  - destruct (get_next_agent_valid s Hs) as (ua & s1 & Hn & Hin & Hp & Hv).
    destruct (IH s1 Hv) as (out & s' & He & Hincl & Hall).
    exists (ua :: out), s'. cbn [exec]. rewrite Hn. cbn [Py.bind fst snd].
    rewrite He. cbn [Py.bind fst snd]. rewrite Hp in Hincl.
    split; [reflexivity|]. split; [exact Hincl|].
    constructor; [now apply Hincl | exact Hall].
  - destruct (add_custom_agent_valid ua s Hs) as [Hv Hi].
    destruct (IH _ Hv) as (out & s' & He & Hincl & Hall).
    exists out, s'. cbn [exec]. split; [exact He|].
    split; [|exact Hall]. eapply incl_tran; eassumption.
Qed.

(** Sequential draws and additions, in any order, never fail on a new
    rotator, and every draw is an agent of the pool. *)
Theorem rotation_never_fails (ops : list op) :
  exists out s',
    exec ops init = Py.Ok (out, s')
    /\ Forall (fun ua => In ua (user_agents s')) out.
Proof.
  destruct (exec_valid ops init) as (out & s' & He & _ & Hall).
  - cbn. lia.
  - now exists out, s'.
Qed.

(** [get_random_agent] returns an agent of the pool; it fails, with
    [IndexError], on an empty pool only. *)
Theorem get_random_agent_member (r : nat) (s : t) :
  match get_random_agent r s with
  | Py.Ok ua => In ua (user_agents s)
  | Py.Raise e => e = Py.IndexError /\ user_agents s = []
  end.
Proof.
  unfold get_random_agent. destruct (user_agents s) as [ | a l] eqn:E.
  - cbn. auto.
  - destruct (choice_nonempty r (a :: l)) as (x & -> & Hin);
      [discriminate | exact Hin].
Qed.

Lemma get_desktop_agent_Ok (r : nat) (s : t) (ua : string) :
  get_desktop_agent r s = Py.Ok ua ->
  In ua (user_agents s) /\ is_desktop ua = true.
Proof.
  unfold get_desktop_agent. intros H.
  destruct (filter is_desktop (user_agents s)) as [ | a l] eqn:E;
    [discriminate H|].
  destruct (choice_nonempty r (a :: l)) as (x & Hx & Hin); [discriminate|].
  rewrite Hx in H. injection H as ->.
  rewrite <- E in Hin. now apply filter_In in Hin.
Qed.

(** [get_desktop_agent] returns an agent of the pool that passes the
    desktop filter; when it fails, no agent of the pool passes it. *)
Theorem get_desktop_agent_sound (r : nat) (s : t) :
  match get_desktop_agent r s with
  | Py.Ok ua => In ua (user_agents s) /\ is_desktop ua = true
  | Py.Raise e =>
      e = Py.IndexError
      /\ forall ua, In ua (user_agents s) -> is_desktop ua = false
  end.
Proof.
  unfold get_desktop_agent.
  destruct (filter is_desktop (user_agents s)) as [ | a l] eqn:E.
  - cbn. split; [reflexivity|]. intros ua Hin.
    destruct (is_desktop ua) eqn:Hd; [|reflexivity].
    assert (H : In ua (filter is_desktop (user_agents s)))
      by (apply filter_In; auto).
    rewrite E in H. destruct H.
  - destruct (choice_nonempty r (a :: l)) as (x & -> & Hin); [discriminate|].
    rewrite <- E in Hin. now apply filter_In in Hin.
Qed.

(** [get_mobile_agent] never fails, and what it returns is rejected by the
    desktop filter: a mobile draw and a desktop draw never coincide. *)
Theorem get_mobile_agent_not_desktop (r r' : nat) (s s' : t) :
  exists ua,
    get_mobile_agent r s = Py.Ok ua
    /\ is_desktop ua = false
    /\ get_desktop_agent r' s' <> Py.Ok ua.
Proof.
  unfold get_mobile_agent.
  destruct (choice_nonempty r mobile_agents) as (ua & Hc & Hin);
    [discriminate|].
  exists ua. split; [exact Hc|].
  assert (Hd : is_desktop ua = false).
  { repeat (destruct Hin as [<- | Hin]; [vm_compute; reflexivity|]).
    destruct Hin. }
  split; [exact Hd|]. intros H.
  apply get_desktop_agent_Ok in H. destruct H as [_ H]. congruence.
Qed.

End UserAgentRotatorExtras.

(** * Further properties of the rotator with statistics *)

Section SmartUserAgentRotatorExtras.

Import SmartUserAgentRotator.

Lemma record_result_other (ua ua' : string) (b : bool) (s : t) :
  ua <> ua' ->
  Py.get ua (agent_success_rates (record_result ua' b s))
  = Py.get ua (agent_success_rates s).
Proof.
  intros H. rewrite record_result_rates. now apply get_set_other.
Qed.

Lemma record_all_cons (ua : string) (b : bool)
      (results : list (string * bool)) (s : t) :
  record_all ((ua, b) :: results) s = record_all results (record_result ua b s).
Proof. reflexivity. Qed.

Lemma successes_of_le (ua : string) (results : list (string * bool)) :
  (successes_of ua results <= attempts_of ua results)%nat.
Proof.
  unfold successes_of, attempts_of.
  induction results as [ | [x y] results IH]; [reflexivity|].
  cbn [filter fst snd].
  destruct (String.eqb x ua); [destruct y|]; cbn [andb length]; lia.
Qed.

(** The entry of [ua] after a run of calls, from the entry before it. *)
Lemma record_all_entry (ua : string) (results : list (string * bool)) :
  forall s,
    Py.get ua (agent_success_rates (record_all results s))
    = if (attempts_of ua results =? 0)%nat
      then Py.get ua (agent_success_rates s)
      else Some {| success := (success (entry_of ua s)
                               + successes_of ua results)%nat;
                   total := (total (entry_of ua s)
                             + attempts_of ua results)%nat |}.
Proof.
  induction results as [ | [ua' b] results IH]; intros s; [reflexivity|].
  rewrite record_all_cons, IH. unfold attempts_of, successes_of.
  cbn [filter fst snd].
  destruct (String.eqb ua' ua) eqn:E.
  - apply String.eqb_eq in E. subst ua'. cbn [andb length].
    fold (attempts_of ua results). fold (successes_of ua results).
    assert (Hg : Py.get ua (agent_success_rates (record_result ua b s))
                 = Some {| success := (success (entry_of ua s)
                                       + if b then 1 else 0)%nat;
                           total := (total (entry_of ua s) + 1)%nat |})
      by (rewrite record_result_rates; apply get_set_same).
    unfold entry_of at 1 2. rewrite Hg. cbn [success total].
    destruct (attempts_of ua results =? 0)%nat eqn:E0.
    + apply Nat.eqb_eq in E0.
      assert (Hs0 : successes_of ua results = 0%nat)
        by (pose proof (successes_of_le ua results); lia).
      destruct b; cbn [length]; fold (successes_of ua results);
        rewrite ?E0, ?Hs0; cbn [Nat.eqb]; do 2 f_equal; lia.
    + destruct b; cbn [length Nat.eqb]; fold (successes_of ua results);
        do 2 f_equal; lia.
  - cbn [andb]. fold (attempts_of ua results). fold (successes_of ua results).
    assert (Hne : ua <> ua')
      by (intros ->; rewrite String.eqb_refl in E; discriminate).
    unfold entry_of. rewrite (record_result_other ua ua' b s Hne).
    reflexivity.
Qed.

(** After any run of [record_result] calls on a new rotator, an agent is
    tracked exactly if it was reported at least once; its [total] is the
    number of its reports and its [success] the number of those with
    [success=True]. *)
Theorem record_all_counts (ua : string) (results : list (string * bool)) :
  Py.get ua (agent_success_rates (record_all results init))
  = if (attempts_of ua results =? 0)%nat
    then None
    else Some {| success := successes_of ua results;
                 total := attempts_of ua results |}.
Proof.
  rewrite record_all_entry. reflexivity.
Qed.

Lemma record_result_usage (ua : string) (b : bool) (s : t) :
  (forall a, Py.get a (agent_usage_count s)
             = option_map total (Py.get a (agent_success_rates s))) ->
  forall a, Py.get a (agent_usage_count (record_result ua b s))
            = option_map total
                (Py.get a (agent_success_rates (record_result ua b s))).
Proof.
  intros H a. rewrite record_result_rates.
  unfold record_result. cbn [agent_usage_count].
  destruct (String.eqb a ua) eqn:E.
  - apply String.eqb_eq in E. subst a. rewrite !get_set_same.
    cbn [option_map total]. rewrite (H ua). unfold entry_of.
    now destruct (Py.get ua (agent_success_rates s)).
  - apply String.eqb_neq in E. rewrite !get_set_other by exact E. apply H.
Qed.

(** The usage counter of an agent and the [total] of its statistics are
    the same number, and are present together. *)
Theorem usage_count_is_total (results : list (string * bool)) (ua : string) :
  Py.get ua (agent_usage_count (record_all results init))
  = option_map total
      (Py.get ua (agent_success_rates (record_all results init))).
Proof.
  assert (H : forall s,
    (forall a, Py.get a (agent_usage_count s)
               = option_map total (Py.get a (agent_success_rates s))) ->
    forall a, Py.get a (agent_usage_count (record_all results s))
              = option_map total
                  (Py.get a (agent_success_rates (record_all results s)))).
  { induction results as [ | [x b] results IH]; intros s Hs; [exact Hs|].
    rewrite record_all_cons. apply IH. now apply record_result_usage. }
  apply (H init). reflexivity.
Qed.

Lemma record_all_rotator (results : list (string * bool)) (s : t) :
  rotator (record_all results s) = rotator s.
Proof.
  revert s. induction results as [ | [x b] results IH]; intros s;
    [reflexivity|].
  rewrite record_all_cons, IH. reflexivity.
Qed.

(** On a rotator with a non-empty pool [get_best_agent] always returns an
    agent: a tracked one with at least 5 attempts and at least one success,
    or one of the pool.  The tracked one need not be in the pool. *)
Theorem get_best_agent_returns (r : nat) (s : t) :
  UserAgentRotator.user_agents (rotator s) <> [] ->
  exists a,
    get_best_agent r s = Py.Ok a
    /\ (In a (UserAgentRotator.user_agents (rotator s))
        \/ exists d, In (a, d) (agent_success_rates s)
                     /\ (5 <= total d)%nat /\ (0 < success d)%nat).
Proof.
  intros Hpool.
  destruct (choice_nonempty r _ Hpool) as (x & Hx & Hin).
  assert (Hrandom : exists a,
             get_random_agent r s = Py.Ok a
             /\ (In a (UserAgentRotator.user_agents (rotator s))
                 \/ exists d, In (a, d) (agent_success_rates s)
                              /\ (5 <= total d)%nat /\ (0 < success d)%nat))
    by (exists x; split; [exact Hx | now left]).
  unfold get_best_agent, best_loop.
  destruct (agent_success_rates s) as [ | item items] eqn:E; [exact Hrandom|].
  destruct (best_fold_inv (item :: items) None 0)
    as [[-> _] | (a & da & -> & Hpos & l1 & l2 & Hl & Hda & _)];
    [exact Hrandom|].
  destruct a as [ | c a]; [exact Hrandom|].
  exists (String c a). split; [reflexivity|]. right. exists da.
  split; [rewrite Hl; apply in_elt|]. split; [exact Hda|].
  destruct (success da) eqn:Es; [|lia].
  exfalso. apply (Qlt_not_le _ _ Hpos). now apply rate_zero.
Qed.

Lemma get_best_agent_returns_witness :
  exists a,
    get_best_agent 3 (record_all (repeat ("agent-x"%string, true) 6) init)
    = Py.Ok a
    /\ (In a (UserAgentRotator.user_agents
                (rotator (record_all (repeat ("agent-x"%string, true) 6) init)))
        \/ exists d,
             In (a, d)
                (agent_success_rates
                   (record_all (repeat ("agent-x"%string, true) 6) init))
             /\ (5 <= total d)%nat /\ (0 < success d)%nat).
Proof.
  apply (get_best_agent_returns 3
           (record_all (repeat ("agent-x"%string, true) 6) init)).
  vm_compute. discriminate.
Defined.

Lemma stats_fold_entries (l : Py.dict stats) :
  forall (acc : Py.dict report) (k : string) (rep : report),
    In (k, rep) (fold_left stats_step l acc) ->
    In (k, rep) acc
    \/ exists a d,
         In (a, d) l /\ (0 < total d)%nat /\ k = stats_key a
         /\ rep = {| success_rate := rate d;
                     total_uses := total d;
                     successes := success d |}.
Proof.
  induction l as [ | [a d] l IH]; intros acc k rep Hin; [now left|].
  cbn [fold_left] in Hin. apply IH in Hin.
  destruct Hin as [Hin | (a' & d' & Hin & H)].
  - unfold stats_step in Hin. destruct (0 <? total d)%nat eqn:E;
      [|now left].
    apply In_set in Hin. destruct Hin as [[-> ->] | Hin]; [|now left].
    right. exists a, d. apply Nat.ltb_lt in E.
    split; [now left | auto].
  - right. exists a', d'. split; [now right | exact H].
Qed.

(** [get_stats] reports nothing but tracked agents: every entry of the
    report is filed under the key of a tracked agent with at least one
    attempt and carries that agent's numbers. *)
Theorem get_stats_entries_tracked (s : t) (k : string) (rep : report) :
  In (k, rep) (fst (get_stats s)) ->
  exists a d,
    In (a, d) (agent_success_rates s)
    /\ (0 < total d)%nat
    /\ k = stats_key a
    /\ rep = {| success_rate := rate d;
                total_uses := total d;
                successes := success d |}.
Proof.
  unfold get_stats. cbn [fst]. intros H.
  apply stats_fold_entries in H. destruct H as [[] | H]. exact H.
Qed.

Lemma get_stats_entries_tracked_witness :
  exists a d,
    In (a, d)
       (agent_success_rates
          (record_all [("agent-x"%string, true); ("agent-x"%string, false)]
             init))
    /\ (0 < total d)%nat
    /\ "agent-x..."%string = stats_key a
    /\ {| success_rate := rate {| success := 1; total := 2 |};
          total_uses := 2;
          successes := 1 |}
       = {| success_rate := rate d;
            total_uses := total d;
            successes := success d |}.
Proof.
  apply (get_stats_entries_tracked
           (record_all [("agent-x"%string, true); ("agent-x"%string, false)]
              init)).
  vm_compute. left. reflexivity.
Defined.

Lemma rate_unit_interval (d : stats) :
  (success d <= total d)%nat -> (1 <= total d)%nat ->
  0 <= rate d /\ rate d <= 1.
Proof.
  intros Hs Ht. unfold rate.
  assert (Hpos : 0 < Py.of_nat (total d)) by (apply of_nat_pos; lia).
  split.
  - apply Qle_shift_div_l; [exact Hpos|]. rewrite Qmult_0_l.
    unfold Py.of_nat, Qle. cbn. lia.
  - apply Qle_shift_div_r; [exact Hpos|]. rewrite Qmult_1_l.
    unfold Py.of_nat, Qle. cbn. lia.
Qed.

(** After any run of [record_result] calls on a new rotator, every success
    rate in the report of [get_stats] is between 0 and 1, and no entry
    reports more successes than uses. *)
Theorem get_stats_rates_in_unit_interval
  (results : list (string * bool)) (k : string) (rep : report) :
  In (k, rep) (fst (get_stats (record_all results init))) ->
  0 <= success_rate rep /\ success_rate rep <= 1
  /\ (successes rep <= total_uses rep)%nat.
Proof.
  unfold get_stats. cbn [fst]. intros H.
  apply stats_fold_entries in H.
  destruct H as [[] | (a & d & Hin & _ & _ & ->)].
  destruct (record_all_counts_ok results init init_counts_ok a d Hin)
    as [Hs Ht].
  cbn [success_rate total_uses successes].
  destruct (rate_unit_interval d Hs Ht). auto.
Qed.

Lemma get_stats_rates_in_unit_interval_witness :
  0 <= success_rate {| success_rate := rate {| success := 1; total := 2 |};
                       total_uses := 2;
                       successes := 1 |}
  /\ success_rate {| success_rate := rate {| success := 1; total := 2 |};
                     total_uses := 2;
                     successes := 1 |} <= 1
  /\ (successes {| success_rate := rate {| success := 1; total := 2 |};
                   total_uses := 2;
                   successes := 1 |}
      <= total_uses {| success_rate := rate {| success := 1; total := 2 |};
                       total_uses := 2;
                       successes := 1 |})%nat.
Proof.
  apply (get_stats_rates_in_unit_interval
           [("agent-x"%string, true); ("agent-x"%string, false)]
           "agent-x..."%string).
  vm_compute. left. reflexivity.
Defined.

End SmartUserAgentRotatorExtras.

(** * The page classifier of the fetch loop *)

Section ImprovedEbayScraperExtras.

Import ImprovedEbayScraper.

(** A page is refused exactly when one of the security indicators occurs
    somewhere in its text, in the indicator's own (lower) case. *)
Theorem _is_valid_page_spec (page_text : string) :
  _is_valid_page page_text = false
  <-> exists indicator pre post,
        In indicator security_indicators
        /\ page_text = (pre ++ indicator ++ post)%string.
Proof.
  unfold _is_valid_page. rewrite negb_false_iff, existsb_exists. split.
  - intros (ind & Hin & Hc). apply contains_spec in Hc.
    destruct Hc as (pre & post & ->). now exists ind, pre, post.
  - intros (ind & pre & post & Hin & ->). exists ind. split; [exact Hin|].
    apply contains_spec. now exists pre, post.
Qed.

End ImprovedEbayScraperExtras.

(** * The values the delay takes *)

Section RateLimiterValues.

Import RateLimiter.

Lemma step_delay_values (s : t) (c : call) :
  current_delay (step s c) = current_delay s
  \/ current_delay (step s c) = Py.max (base_delay s * 0.8) 0.5
  \/ current_delay (step s c) = Py.min (base_delay s * 2) 30.0
  \/ current_delay (step s c) = 60.0.
Proof.
  destruct c as [ | k | ]; cbn [step].
  - rewrite on_success_delay. destruct (5 <=? _)%nat; auto.
  - unfold on_failure. cbn [set_counters consecutive_failures base_delay].
    destruct (String.eqb k "rate_limit") eqn:Ek; cbn [orb]; [cbn; auto|].
    destruct (3 <=? consecutive_failures s + 1)%nat eqn:E3; [cbn; auto|].
    apply Nat.leb_gt in E3.
    replace (5 <=? consecutive_failures s + 1)%nat with false
      by (symmetry; apply Nat.leb_gt; lia).
    cbn. auto.
  - cbn. auto.
Qed.

(** Under feedback calls alone the delay of a limiter only ever takes four
    values: the base delay it was constructed with, the relaxed delay
    [max(base_delay * 0.8, 0.5)], the doubled delay [min(base_delay * 2,
    30)] and the 60 s of a block.  The tripled delay is not among them. *)
Theorem delay_takes_four_values (base : Q) (rand : bool) (cs : list call) :
  current_delay (run cs (init base rand)) = base
  \/ current_delay (run cs (init base rand)) = Py.max (base * 0.8) 0.5
  \/ current_delay (run cs (init base rand)) = Py.min (base * 2) 30.0
  \/ current_delay (run cs (init base rand)) = 60.0.
Proof.
  assert (H : forall s,
    base_delay s = base ->
    (current_delay s = base
     \/ current_delay s = Py.max (base * 0.8) 0.5
     \/ current_delay s = Py.min (base * 2) 30.0
     \/ current_delay s = 60.0) ->
    current_delay (run cs s) = base
    \/ current_delay (run cs s) = Py.max (base * 0.8) 0.5
    \/ current_delay (run cs s) = Py.min (base * 2) 30.0
    \/ current_delay (run cs s) = 60.0).
  { induction cs as [ | c cs IH]; intros s Hb Hs; [exact Hs|].
    cbn [run fold_left]. fold (run cs (step s c)).
    apply IH; [now rewrite step_base_delay|].
    destruct (step_delay_values s c) as [-> | H]; [exact Hs|].
    rewrite Hb in H. tauto. }
  apply H; [reflexivity | now left].
Qed.

End RateLimiterValues.
